(** * Salt execution modules [vyos], [virsh] and [time_functions]

    A shallow embedding of the three Python modules of the repository and
    the proofs of the properties stated about them.

    - [Py]            : the fragment of Python the modules rely on
                        (values, exceptions, an exception/state monad,
                        [str.splitlines], [str.rstrip], [str.startswith],
                        [range], [del l[0]], [del l[-1]]).
    - [ToyRe]         : a small executable instance of [re.search], used
                        to run the models on concrete inputs.
    - [Vyos]          : [src/vyos.py].
    - [Virsh]         : [src/virsh.py].
    - [TimeFunctions] : [src/time_functions.py].
    - [Sample]        : concrete collaborators (a device, a hypervisor, a
                        host clock) on which the models run.
    - [Notions]       : the notions the properties are stated with.

    The definitions come first; the lemmas and theorems follow, module
    by module of the source. *)

From Stdlib Require Import ZArith String Ascii List Bool Lia QArith.
From stdpp Require Import base option gmap strings list.

Local Open Scope string_scope.
Local Open Scope list_scope.

(* ===================================================================== *)
(** * The Python fragment                                                 *)
(* ===================================================================== *)

Module Py.

(** ** Exceptions *)

(** The exception classes that the three modules raise or let through.
    [SystemExit] carries the exit status given to [sys.exit]. *)
Inductive exn : Type :=
  | AttributeError (attr : string)
  | IndexError
  | TypeError
  | SystemExit (status : Z)
  | VyOSError (msg : string)
  | ConfigError (msg : string)
  | CommitError (msg : string)
  | ConfigLocked (msg : string)
  | PexpectError (what : string)
  | LibvirtError (what : string)
  | ReError.

(** [class ConfigError(VyOSError)], [class CommitError(ConfigError)],
    [class ConfigLocked(CommitError)]: the subclass tests. *)
Definition is_ConfigError (e : exn) : bool :=
  match e with
  | ConfigError _ | CommitError _ | ConfigLocked _ => true
  | _ => false
  end.

Definition is_VyOSError (e : exn) : bool :=
  match e with
  | VyOSError _ => true
  | _ => is_ConfigError e
  end.

(** ** Results and the exception/state monad *)

Inductive res (A : Type) : Type :=
  | Ret (a : A)
  | Raise (e : exn).
Arguments Ret {A} a.
Arguments Raise {A} e.

(** A computation over a store [S]: it always hands back the store, so
    that the effects made before an exception was raised are kept. *)
Definition M (S A : Type) : Type := S -> res A * S.

Definition ret {S A} (a : A) : M S A := fun s => (Ret a, s).
Definition raise {S A} (e : exn) : M S A := fun s => (Raise e, s).
Definition bind {S A B} (m : M S A) (k : A -> M S B) : M S B :=
  fun s => match m s with
           | (Ret a, s') => k a s'
           | (Raise e, s') => (Raise e, s')
           end.
Definition gets {S A} (f : S -> A) : M S A := fun s => (Ret (f s), s).
Definition modify {S} (f : S -> S) : M S unit := fun s => (Ret tt, f s).

(** [try: body  except: handler] with a bare [except], which catches
    every exception, [SystemExit] included. *)
Definition try_except {S A} (body : M S A) (handler : exn -> M S A) : M S A :=
  fun s => match body s with
           | (Ret a, s') => (Ret a, s')
           | (Raise e, s') => handler e s'
           end.

Declare Scope py_scope.
Delimit Scope py_scope with py.
Notation "'let!' x ':=' m 'in' k" := (bind m (fun x => k))
  (at level 10, x name, m at level 100, k at level 200) : py_scope.
Notation "'do!' m 'in' k" := (bind m (fun _ => k))
  (at level 10, m at level 100, k at level 200) : py_scope.

Local Open Scope py_scope.

(** [for x in xs: acc = body(acc, x)] *)
Fixpoint for_each {S A B} (xs : list B) (body : A -> B -> M S A) (acc : A)
  : M S A :=
  match xs with
  | [] => ret acc
  | x :: xs' => let! acc' := body acc x in for_each xs' body acc'
  end.

(** ** Values *)

Inductive val : Type :=
  | VNone
  | VBool (b : bool)
  | VInt (z : Z)
  | VStr (s : string)
  | VList (l : list string)
  | VHandle (h : nat)
  | VCallable (name : string).

(** Python truthiness, as used by [if x] and [not x]. *)
Definition truthy (v : val) : bool :=
  match v with
  | VNone => false
  | VBool b => b
  | VInt z => negb (z =? 0)%Z
  | VStr s => negb (String.eqb s EmptyString)
  | VList l => negb (Nat.eqb (length l) 0)
  | VHandle _ => true
  | VCallable _ => true
  end.

(** ** Objects and the heap *)

(** An instance: its class and its instance dictionary. *)
Record object : Type := Object {
  class_of : string;
  fields : gmap string val
}.

Abbreviation heap := (gmap nat object).

(** ** Strings *)

Definition LF : ascii := ascii_of_nat 10.
Definition CR : ascii := ascii_of_nat 13.
Definition DQUOTE : ascii := ascii_of_nat 34.

(** [s.startswith(p)] and [s.startswith((p1, ..., pn))] *)
Definition startswith (s p : string) : bool := String.prefix p s.
Definition startswith_any (s : string) (ps : list string) : bool :=
  existsb (startswith s) ps.

(** [str.splitlines()] of a byte string: lines end at LF, CR or CR LF;
    the line ends are dropped and no empty line follows the last one. *)
Fixpoint splitlines_go (line : list ascii) (s : string) : list string :=
  match s with
  | EmptyString =>
      match line with
      | [] => []
      | _ => [string_of_list_ascii (rev line)]
      end
  | String c s' =>
      if Ascii.eqb c LF then
        string_of_list_ascii (rev line) :: splitlines_go [] s'
      else if Ascii.eqb c CR then
        match s' with
        | String c' s'' =>
            if Ascii.eqb c' LF
            then string_of_list_ascii (rev line) :: splitlines_go [] s''
            else string_of_list_ascii (rev line) :: splitlines_go [] s'
        | EmptyString => string_of_list_ascii (rev line) :: splitlines_go [] s'
        end
      else splitlines_go (c :: line) s'
  end.

Definition splitlines (s : string) : list string := splitlines_go [] s.

(** [s.rstrip(chars)]: drop the trailing characters that occur in [chars]. *)
Fixpoint drop_while {A} (p : A -> bool) (l : list A) : list A :=
  match l with
  | [] => []
  | x :: l' => if p x then drop_while p l' else l
  end.

Definition char_in (chars : string) (c : ascii) : bool :=
  existsb (Ascii.eqb c) (list_ascii_of_string chars).

Definition rstrip (chars s : string) : string :=
  string_of_list_ascii
    (rev (drop_while (char_in chars) (rev (list_ascii_of_string s)))).

(** ** Lists *)

(** [range(start, stop, 1)] *)
Definition range (start stop : Z) : list Z :=
  map (fun i => (start + Z.of_nat i)%Z) (seq 0 (Z.to_nat (stop - start))).

(** [del l[0]] *)
Definition del_first {S A} (l : list A) : M S (list A) :=
  match l with
  | [] => raise IndexError
  | _ :: l' => ret l'
  end.

(** [del l[-1]] *)
Definition del_last {S A} (l : list A) : M S (list A) :=
  match l with
  | [] => raise IndexError
  | _ => ret (removelast l)
  end.

End Py.

Import Py.
Local Open Scope py_scope.

(* ===================================================================== *)
(** * The regular-expression library                                      *)
(* ===================================================================== *)

(** [re.search(pattern, string, flags)] belongs to Python's standard
    library.  The modules only test its result for truth (or against
    [None]), so the interface yields a boolean, or raises when the
    pattern does not compile. *)
Class ReLib : Type := {
  re_search : string -> string -> Z -> res bool
}.

(** [re.I], [re.M] and [re.S] *)
Definition re_I : Z := 2.
Definition re_M : Z := 8.
Definition re_S : Z := 16.

(** An executable instance for a fragment of the pattern language:
    literal characters, [\s], [.], [^], [$] and the postfix operators
    [*] and [+].  Every other pattern is reported as not compiling; the
    instance is only used to run the models on concrete inputs. *)
Module ToyRe.

Inductive atom : Type :=
  | Lit (c : ascii)
  | AnyChar
  | Space
  | Bol
  | Eol.

Inductive quant : Type := One | Star | Plus.

Inductive token : Type :=
  | TAtom (a : atom)
  | TStar
  | TPlus
  | TBad.

Definition is_alnum (c : ascii) : bool :=
  let n := nat_of_ascii c in
  (((48 <=? n) && (n <=? 57)) || ((65 <=? n) && (n <=? 90))
   || ((97 <=? n) && (n <=? 122)))%nat.

Definition token_of (c : ascii) : token :=
  if Ascii.eqb c "."%char then TAtom AnyChar
  else if Ascii.eqb c "^"%char then TAtom Bol
  else if Ascii.eqb c "$"%char then TAtom Eol
  else if Ascii.eqb c "*"%char then TStar
  else if Ascii.eqb c "+"%char then TPlus
  else if char_in "()[]{}|?" c then TBad
  else TAtom (Lit c).

Fixpoint lex (s : list ascii) : list token :=
  match s with
  | [] => []
  | c :: s1 =>
      if Ascii.eqb c "\"%char then
        match s1 with
        | [] => [TBad]
        | e :: s2 =>
            (if Ascii.eqb e "s"%char then TAtom Space
             else if is_alnum e then TBad
             else TAtom (Lit e)) :: lex s2
        end
      else token_of c :: lex s1
  end.

Definition zero_width (a : atom) : bool :=
  match a with
  | Bol | Eol => true
  | _ => false
  end.

Fixpoint items (ts : list token) : option (list (atom * quant)) :=
  match ts with
  | [] => Some []
  | TAtom a :: ts1 =>
      match ts1 with
      | TStar :: ts2 =>
          if zero_width a then None
          else option_map (cons (a, Star)) (items ts2)
      | TPlus :: ts2 =>
          if zero_width a then None
          else option_map (cons (a, Plus)) (items ts2)
      | _ => option_map (cons (a, One)) (items ts1)
      end
  | _ => None
  end.

Definition compile (pattern : string) : option (list (atom * quant)) :=
  items (lex (list_ascii_of_string pattern)).

Definition lower (c : ascii) : ascii :=
  let n := nat_of_ascii c in
  if ((65 <=? n) && (n <=? 90))%nat then ascii_of_nat (n + 32) else c.

Definition is_space (c : ascii) : bool :=
  let n := nat_of_ascii c in
  ((n =? 32) || ((9 <=? n) && (n <=? 13)))%nat.

(** Does a one-character atom accept [c]? *)
Definition accepts (flags : Z) (a : atom) (c : ascii) : bool :=
  match a with
  | Lit l =>
      if Z.testbit flags 1 then Ascii.eqb (lower l) (lower c)
      else Ascii.eqb l c
  | AnyChar => Z.testbit flags 4 || negb (Ascii.eqb c LF)
  | Space => is_space c
  | Bol | Eol => false
  end.

(** [prev] is the character before the current position, if any. *)
Definition at_bol (flags : Z) (prev : option ascii) : bool :=
  match prev with
  | None => true
  | Some p => Z.testbit flags 3 && Ascii.eqb p LF
  end.

Definition at_eol (flags : Z) (rest : list ascii) : bool :=
  match rest with
  | [] => true
  | c :: rest' =>
      Ascii.eqb c LF
      && (Z.testbit flags 3 || Nat.eqb (length rest') 0)
  end.

(** Backtracking match of the items at the current position. *)
Fixpoint match_here (flags : Z) (its : list (atom * quant))
  : option ascii -> list ascii -> bool :=
  match its with
  | [] => fun _ _ => true
  | (a, q) :: its' =>
      let step (k : option ascii -> list ascii -> bool) prev s :=
        match s with
        | c :: s' => accepts flags a c && k (Some c) s'
        | [] => false
        end in
      let star :=
        fix star (prev : option ascii) (s : list ascii) {struct s} : bool :=
          match_here flags its' prev s
          || match s with
             | c :: s' => accepts flags a c && star (Some c) s'
             | [] => false
             end in
      match q with
      | One =>
          match a with
          | Bol => fun prev s => at_bol flags prev && match_here flags its' prev s
          | Eol => fun prev s => at_eol flags s && match_here flags its' prev s
          | _ => step (match_here flags its')
          end
      | Star => star
      | Plus => step star
      end
  end.

Fixpoint search_from (flags : Z) (its : list (atom * quant))
  (prev : option ascii) (s : list ascii) : bool :=
  match_here flags its prev s
  || match s with
     | c :: s' => search_from flags its (Some c) s'
     | [] => false
     end.

Definition search (pattern s : string) (flags : Z) : res bool :=
  match compile pattern with
  | None => Raise ReError
  | Some its => Ret (search_from flags its None (list_ascii_of_string s))
  end.

End ToyRe.

#[export] Instance toy_re : ReLib := {| re_search := ToyRe.search |}.


(* ===================================================================== *)
(** * [src/vyos.py]                                                       *)
(* ===================================================================== *)

Module Vyos.

(** ** The pseudo-terminal session ([pexpect])

    What the module does to the child process is recorded as a trace of
    events, oldest first.  A handle is the number of sessions spawned
    before it. *)
Inductive event : Type :=
  | Spawn (h : nat) (command : string) (echo : bool)
  | SendLine (h : nat) (line : string)
  | ExpectEOF (h : nat)
  | Close (h : nat)
  | Terminate (h : nat) (force : bool).

(** The store: the objects allocated so far and the trace. *)
Record world : Type := World {
  objs : gmap nat object;
  trace : list event
}.

(** The behaviour of the child process, seen from the module:
    whether [pexpect.spawn] raises, and what [expect(pexpect.EOF)] leaves
    in [before] (or raises), given everything done so far. *)
Class Device : Type := {
  spawn_error : list event -> option exn;
  read_to_eof : list event -> res string
}.

Definition record (e : event) : M world unit :=
  modify (fun w => World (objs w) (trace w ++ [e])).

Definition is_spawn (e : event) : bool :=
  match e with
  | Spawn _ _ _ => true
  | _ => false
  end.

Section Session.
Context {dev : Device}.

(** [pexpect.spawn(command, echo=echo)] *)
Definition spawn (command : string) (echo : bool) : M world val :=
  let! t := gets trace in
  match spawn_error t with
  | Some e => raise e
  | None =>
      let h := length (List.filter is_spawn t) in
      do! record (Spawn h command echo) in
      ret (VHandle h)
  end.

(** [session.sendline(line)] *)
Definition sendline (session : val) (line : string) : M world unit :=
  match session with
  | VHandle h => record (SendLine h line)
  | _ => raise (AttributeError "sendline")
  end.

(** [session.expect(pexpect.EOF)] followed by reading [session.before] *)
Definition expect_EOF (session : val) : M world string :=
  match session with
  | VHandle h =>
      do! record (ExpectEOF h) in
      let! t := gets trace in
      match read_to_eof t with
      | Ret before => ret before
      | Raise e => raise e
      end
  | _ => raise (AttributeError "expect")
  end.

(** [session.close()] and [session.terminate(force=force)] *)
Definition close (session : val) : M world unit :=
  match session with
  | VHandle h => record (Close h)
  | _ => raise (AttributeError "close")
  end.

Definition terminate (session : val) (force : bool) : M world unit :=
  match session with
  | VHandle h => record (Terminate h force)
  | _ => raise (AttributeError "terminate")
  end.

(** ** Attribute access *)

(** The attributes a class defines: [Router] has its four methods. *)
Definition class_attrs (cls : string) : list string :=
  if String.eqb cls "Router"
  then ["__init__"; "execute_command"; "status"; "close_session"]
  else [].

(** [self.name]: the instance dictionary first, then the class;
    [AttributeError] when neither has the name. *)
Definition getattr (self : nat) (name : string) : M world val :=
  let! os := gets objs in
  match os !! self with
  | Some o =>
      match fields o !! name with
      | Some v => ret v
      | None =>
          if existsb (String.eqb name) (class_attrs (class_of o))
          then ret (VCallable name)
          else raise (AttributeError name)
      end
  | None => raise (AttributeError name)
  end.

(** [self.name = v] *)
Definition setattr (self : nat) (name : string) (v : val) : M world unit :=
  modify (fun w =>
    World (alter (fun o => Object (class_of o) (<[name := v]> (fields o)))
                 self (objs w))
          (trace w)).

(** A new, empty instance of [cls]. *)
Definition allocate (cls : string) : M world nat :=
  let! os := gets objs in
  let self := fresh (dom os) in
  do! modify (fun w => World (<[self := Object cls ∅]> (objs w)) (trace w)) in
  ret self.

(** ** [class Router] *)

(** [self.session.sendline(line)] *)
Definition session_sendline (self : nat) (line : string) : M world unit :=
  let! session := getattr self "session" in
  sendline session line.

(** [Router.__init__], run on a new instance. *)
Definition Router : M world nat :=
  let! self := allocate "Router" in
  do! setattr self "session_modified" (VBool false) in
  do! setattr self "session_saved" (VBool true) in
  do! setattr self "conf_mode" (VBool false) in
  do! setattr self "codec" (VStr "utf8") in
  let! session := spawn "su - vyos" false in
  do! setattr self "session" session in
  do! session_sendline self "export TERM=xterm" in
  do! session_sendline self "set terminal length 0" in
  ret self.

(** [Router.execute_command] *)
Definition execute_command (self : nat) (command : string)
  (config_mode_required : bool) : M world (list string) :=
  let remove_top_lines := 1%Z in
  let remove_bottom_lines := 2%Z in
  let! counts :=
    if config_mode_required then
      do! session_sendline self "config" in
      do! session_sendline self command in
      do! session_sendline self "commit" in
      do! session_sendline self "save" in
      do! session_sendline self "exit" in
      ret ((remove_top_lines + 3)%Z, (remove_bottom_lines + 1)%Z)
    else
      do! session_sendline self command in
      ret (remove_top_lines, remove_bottom_lines) in
  let remove_top_lines := fst counts in
  let remove_bottom_lines := snd counts in
  do! session_sendline self "exit" in
  let! session := getattr self "session" in
  let! before := expect_EOF session in
  let output := map (rstrip "?[m") (splitlines before) in
  if (3 <=? length output)%nat then
    let! output :=
      for_each (range 1 remove_top_lines)
               (fun out _ => del_first out) output in
    let! output :=
      for_each (range 1 remove_bottom_lines)
               (fun out _ => del_last out) output in
    ret output
  else ret output.

(** [Router.status]: the dictionary display evaluates its values in
    order, [self.logged_in] first. *)
Definition status (self : nat) : M world (list (string * val)) :=
  let! logged_in := getattr self "logged_in" in
  let! session_modified := getattr self "session_modified" in
  let! session_saved := getattr self "session_saved" in
  let! conf_mode := getattr self "conf_mode" in
  ret [("logged_in", logged_in);
       ("session_modified", session_modified);
       ("session_saved", session_saved);
       ("conf_mode", conf_mode)].

(** [Router.close_session] *)
Definition close_session (self : nat) : M world unit :=
  let! session := getattr self "session" in
  do! close session in
  let! session := getattr self "session" in
  terminate session true.

(** ** The wired entry points *)

(** The message of the [else] branch of [run_op_mode_command]. *)
Definition op_mode_message : string :=
  "Op mode commands must begin with "
  ++ String DQUOTE ("show" ++ String DQUOTE ".").

(** [run_op_mode_command] *)
Definition run_op_mode_command (command : string) : M world val :=
  if startswith command "show" then
    let! router := Router in
    let prefix := EmptyString in
    let! conf_mode := getattr router "conf_mode" in
    let prefix := if truthy conf_mode then "run" else prefix in
    let! output := execute_command router (prefix ++ " " ++ command) false in
    do! close_session router in
    ret (VList output)
  else ret (VStr op_mode_message).

(** The prefixes accepted by [run_config_mode_command]. *)
Definition config_prefixes : list string :=
  ["confirm"; "comment"; "compare"; "copy"; "delete"; "discard"; "edit";
   "load"; "loadkey"; "merge"; "rename"; "rollback"; "run"; "set"; "show"].

(** [run_config_mode_command]: without an [else] branch the function
    ends and returns [None]. *)
Definition run_config_mode_command (command : string) (save_changes : bool)
  : M world val :=
  if startswith_any command config_prefixes then
    let! router := Router in
    let! output := execute_command router command true in
    do! close_session router in
    ret (VList output)
  else ret VNone.

End Session.

(** ** The functions not yet wired to the entry points

    [_commit], [_save], [_exit], [_set] and [_delete] are module-level
    functions: their [self.__name] is not mangled, so they read and write
    the attributes [__conf_mode], [__session_modified], [__session_saved]
    and call [self.__execute_command].  No class of the module defines
    that method; its effect on the child process is a parameter, and it
    does not touch the attributes of [self]. *)
Class PrivateExecute : Type := {
  private_execute : string -> list event -> res string * list event
}.

Section Unwired.
Context {re : ReLib} {px : PrivateExecute}.

(** [self.__execute_command(command)] *)
Definition call_execute_command (self : nat) (command : string)
  : M world string :=
  let! f := getattr self "__execute_command" in
  match f with
  | VCallable _ =>
      fun w => let (r, t) := private_execute command (trace w) in
               (r, World (objs w) t)
  | _ => raise TypeError
  end.

(** [re.search(pattern, output)], tested for truth *)
Definition search (pattern output : string) : M world bool :=
  match re_search pattern output 0 with
  | Ret b => ret b
  | Raise e => raise e
  end.

Definition _commit (self : nat) : M world val :=
  let! conf_mode := getattr self "__conf_mode" in
  if negb (truthy conf_mode) then
    raise (VyOSError "Cannot commit without entering configuration mode")
  else
    let! session_modified := getattr self "__session_modified" in
    if negb (truthy session_modified) then
      raise (ConfigError "No configuration changes to commit")
    else
      let! output := call_execute_command self "commit" in
      let! failed := search "Commit\s+failed" output in
      if failed then raise (CommitError output)
      else
        let! locked := search "another\s+commit\s+in\s+progress" output in
        if locked then
          raise (ConfigLocked
                   "Configuration is locked due to another commit in progress")
        else
          do! setattr self "__session_modified" (VBool false) in
          do! setattr self "__session_saved" (VBool false) in
          ret VNone.

Definition _save (self : nat) : M world val :=
  let! conf_mode := getattr self "__conf_mode" in
  if negb (truthy conf_mode) then
    raise (VyOSError "Cannot save when not in configuration mode")
  else
    let! session_modified := getattr self "__session_modified" in
    if truthy session_modified then
      raise (VyOSError "Cannot save when there are uncommited changes")
    else
      let! _output := call_execute_command self "save" in
      do! setattr self "__session_saved" (VBool true) in
      ret VNone.

Definition _exit (self : nat) (force : bool) : M world val :=
  let! conf_mode := getattr self "__conf_mode" in
  if negb (truthy conf_mode) then ret VNone
  else
    let! session_modified := getattr self "__session_modified" in
    if truthy session_modified then
      if negb force then
        raise (VyOSError
          "Cannot exit a session with uncommited changes, use force flag to discard")
      else
        let! _output := call_execute_command self "exit discard" in
        do! setattr self "__conf_mode" (VBool false) in
        ret VNone
    else
      let! session_saved := getattr self "__session_saved" in
      if negb (truthy session_saved) && negb force then
        raise (VyOSError
          "Cannot exit a session with unsaved changes, use force flag to ignore")
      else
        let! _output := call_execute_command self "exit" in
        do! setattr self "__conf_mode" (VBool false) in
        ret VNone.

Definition _set (self : nat) (path : string) : M world val :=
  let! conf_mode := getattr self "__conf_mode" in
  if negb (truthy conf_mode) then
    raise (ConfigError
             "Cannot execute set commands when not in configuration mode")
  else
    let! output := call_execute_command self ("set" ++ " " ++ path) in
    let! failed := search "Set\s+failed" output in
    if failed then raise (ConfigError output)
    else
      let! exists_already := search "already exists" output in
      if exists_already then raise (ConfigError "Configuration path already exists")
      else
        do! setattr self "__session_modified" (VBool true) in
        ret VNone.

Definition _delete (self : nat) (path : string) : M world val :=
  let! conf_mode := getattr self "__conf_mode" in
  if negb (truthy conf_mode) then
    raise (ConfigError
             "Cannot execute delete commands when not in configuration mode")
  else
    let! output := call_execute_command self ("delete" ++ " " ++ path) in
    let! nothing := search "Nothing\s+to\s+delete" output in
    if nothing then raise (ConfigError output)
    else
      do! setattr self "__session_modified" (VBool true) in
      ret VNone.

End Unwired.

End Vyos.

(* ===================================================================== *)
(** * [src/virsh.py]                                                      *)
(* ===================================================================== *)

Module Virsh.

(** ** The management library ([libvirt])

    The library is a collaborator: each of its calls returns or raises,
    and may change the state [H] of the hypervisor.  Connections and
    domain objects are handles. *)
Class Libvirt (H : Type) : Type := {
  (** [libvirt.open(uri)]: a connection, [None], or an exception *)
  lv_open : string -> M H (option nat);
  (** [conn.listAllDomains(flags)] *)
  listAllDomains : nat -> Z -> M H (list nat);
  (** [conn.lookupByName(name)] *)
  lookupByName : nat -> string -> M H nat;
  (** [conn.close()] *)
  conn_close : nat -> M H unit;
  (** [domain.name()] *)
  dom_name : nat -> M H string;
  (** [domain.reboot(flags)], [domain.destroy()], [domain.shutdown()],
      [domain.create()] *)
  dom_reboot : nat -> Z -> M H unit;
  dom_destroy : nat -> M H unit;
  dom_shutdown : nat -> M H unit;
  dom_create : nat -> M H unit
}.

(** ** The log sink *)

Inductive level : Type := DEBUG | INFO.

(** An argument of [str.format]: a string, a list of names, or the
    class of the exception being handled ([sys.exc_info()[0]]). *)
Inductive format_arg : Type :=
  | AStr (s : string)
  | ANames (l : list string)
  | AExc (e : exn).

(** A logged message: level, format string and the arguments of
    [format], left unrendered. *)
Record log_entry : Type := Log {
  log_level : level;
  log_format : string;
  log_args : list format_arg
}.

Record world (H : Type) : Type := World {
  hyp : H;
  logs : list log_entry
}.
Arguments World {H} hyp logs.
Arguments hyp {H} w.
Arguments logs {H} w.

Section Wrapper.
Context {H : Type} {lv : Libvirt H} {re : ReLib}.

(** A library call, run on the hypervisor state of the store. *)
Definition lib {A} (m : M H A) : M (world H) A :=
  fun w => let (r, h) := m (hyp w) in (r, World h (logs w)).

Definition log (l : level) (fmt : string) (args : list format_arg)
  : M (world H) unit :=
  modify (fun w => World (hyp w) (logs w ++ [Log l fmt args])).

(** [exit(1)] *)
Definition exit {A} (status : Z) : M (world H) A := raise (SystemExit status).

(** [re.search(match, domain, re.I | re.S | re.M) is not None] *)
Definition matches (match_ domain : string) : M (world H) bool :=
  match re_search match_ domain (Z.lor (Z.lor re_I re_S) re_M) with
  | Ret b => ret b
  | Raise e => raise e
  end.

Definition _connect_to_libvirt : M (world H) nat :=
  let! conn := lib (lv_open "qemu:///system") in
  match conn with
  | None =>
      do! log DEBUG "Failed to open a connection to the hypervisor." [] in
      exit 1
  | Some c => ret c
  end.

(** [for domain in domains: names.append(domain.name())] *)
Definition append_names (domains : list nat) (names : list string)
  : M (world H) (list string) :=
  for_each domains
    (fun names domain => let! n := lib (dom_name domain) in ret (names ++ [n]))
    names.

(** A [try] block either falls through with a value ([inr]) or its
    handler returns from the function ([inl]). *)
Definition _list_vms (state : Z) : M (world H) val :=
  let! conn := _connect_to_libvirt in
  let! r :=
    try_except
      (let! domains := lib (listAllDomains conn state) in
       do! lib (conn_close conn) in
       ret (inr domains))
      (fun error =>
         do! log DEBUG "Unable to list VMs: {}" [AExc error] in
         ret (inl (VBool false))) in
  match r with
  | inl v => ret v
  | inr domains =>
      let! vm_list := append_names domains [] in
      ret (VList vm_list)
  end.

(** [list]; the parameter [match] is a keyword here, hence [match_]. *)
Definition list' (match_ state : string) : M (world H) val :=
  let! code :=
    if String.eqb state "all" then ret 0%Z
    else if String.eqb state "running" then ret 1%Z
    else if String.eqb state "shutdown" then ret 2%Z
    else
      do! log DEBUG "Invalid State: {0}" [AStr state] in
      exit 1 in
  do! log INFO "Listing {0} VMs" [AStr state] in
  let! vm_list := _list_vms code in
  let matching_list := [] in
  match vm_list with
  | VBool false =>
      do! log DEBUG "Could not get the VM list" [] in
      ret (VBool false)
  | VList vm_list =>
      do! log DEBUG "Looking for matches in: {0}" [ANames vm_list] in
      let! matching_list :=
        for_each vm_list
          (fun matching_list domain =>
             do! log DEBUG "Checking if match: {0} to {1}"
                     [AStr match_; AStr domain] in
             let! found := matches match_ domain in
             if found then
               do! log DEBUG "Adding {0} to list" [AStr domain] in
               ret (matching_list ++ [domain])
             else ret matching_list)
          matching_list in
      ret (VList matching_list)
  | _ => raise TypeError
  end.

Definition reboot (domain : string) : M (world H) val :=
  let! conn := _connect_to_libvirt in
  do! log INFO "Reboot" [AStr domain] in
  let! r :=
    try_except
      (let! dom := lib (lookupByName conn domain) in
       do! lib (dom_reboot dom 0) in
       do! lib (conn_close conn) in
       ret (inr tt))
      (fun error =>
         do! log DEBUG "Reboot failed: {0}" [AExc error] in
         ret (inl (VBool false))) in
  match r with
  | inl v => ret v
  | inr _ => ret (VBool true)
  end.

(** [if force is True: dom.destroy() else: dom.shutdown()] *)
Definition destroy_or_shutdown (dom : nat) (force : val) : M (world H) unit :=
  match force with
  | VBool true => lib (dom_destroy dom)
  | _ => lib (dom_shutdown dom)
  end.

Definition shutdown (domain : string) (force : val) : M (world H) val :=
  let! conn := _connect_to_libvirt in
  do! log INFO "Shutting down: {0}" [AStr domain] in
  let! r :=
    try_except
      (let! dom := lib (lookupByName conn domain) in
       do! destroy_or_shutdown dom force in
       do! lib (conn_close conn) in
       ret (inr tt))
      (fun error =>
         do! log DEBUG "Shutdown failed: {0}" [AExc error] in
         ret (inl (VBool false))) in
  match r with
  | inl v => ret v
  | inr _ => ret (VBool true)
  end.

(** The first [try] block of [shutdown_matching] and [start_matching]. *)
Definition all_domain_names (conn : nat) : M (world H) (val + list string) :=
  let domains := [] in
  try_except
    (let! domain_objects := lib (listAllDomains conn 0) in
     let! domains := append_names domain_objects domains in
     ret (inr domains))
    (fun error =>
       do! log DEBUG "Failed to get a list of domains: {0}" [AExc error] in
       ret (inl (VBool false))).

Definition shutdown_matching (match_ : string) (force : val)
  : M (world H) val :=
  let! conn := _connect_to_libvirt in
  let! r := all_domain_names conn in
  match r with
  | inl v => ret v
  | inr domains =>
      do! log DEBUG "Domains: {0}" [ANames domains] in
      do! for_each domains
            (fun _ domain =>
               do! log DEBUG "Checking if match: {0}" [AStr domain] in
               let! found := matches match_ domain in
               if found then
                 do! log INFO "Shutting down: {0}" [AStr domain] in
                 try_except
                   (let! dom := lib (lookupByName conn domain) in
                    destroy_or_shutdown dom force)
                   (fun error =>
                      log DEBUG "Failed to shutdown domain: {0}" [AExc error])
               else ret tt)
            tt in
      do! lib (conn_close conn) in
      ret (VList domains)
  end.

Definition start (domain : string) : M (world H) val :=
  let! conn := _connect_to_libvirt in
  try_except
    (let! dom := lib (lookupByName conn domain) in
     do! lib (dom_create dom) in
     do! lib (conn_close conn) in
     ret (VBool true))
    (fun error =>
       do! log DEBUG "Failed to start domain: {0}" [AExc error] in
       do! lib (conn_close conn) in
       ret (VBool false)).


End Wrapper.

End Virsh.

(* ===================================================================== *)
(** * [src/time_functions.py]                                             *)
(* ===================================================================== *)

Module TimeFunctions.

(** A naive [datetime.datetime]. *)
Record datetime : Type := Datetime {
  year : Z; month : Z; day : Z;
  hour : Z; minute : Z; second : Z; microsecond : Z
}.

(** [time.struct_time] *)
Record struct_time : Type := StructTime {
  tm_year : Z; tm_mon : Z; tm_mday : Z;
  tm_hour : Z; tm_min : Z; tm_sec : Z;
  tm_wday : Z; tm_yday : Z; tm_isdst : Z
}.

(** The host: what [datetime.datetime.now()] and
    [datetime.datetime.utcnow()] read when the function is called, and
    the C library's [time.mktime], which interprets a time tuple in the
    local time zone and returns a float (a rational here). *)
Class Host : Type := {
  now : datetime;
  utcnow : datetime;
  mktime : struct_time -> Q
}.

(** The same host with another reading of the local clock. *)
Definition with_now (h : Host) (d : datetime) : Host :=
  {| now := d; utcnow := @utcnow h; mktime := @mktime h |}.

(** ** [datetime.timetuple] of a naive value *)

Definition is_leap (y : Z) : bool :=
  ((y mod 4 =? 0) && (negb (y mod 100 =? 0) || (y mod 400 =? 0)))%Z.

Definition days_before_year (y : Z) : Z :=
  let y := (y - 1)%Z in (y * 365 + y / 4 - y / 100 + y / 400)%Z.

Definition days_in_month (y m : Z) : Z :=
  if (m =? 2)%Z then (if is_leap y then 29 else 28)%Z
  else if ((m =? 4) || (m =? 6) || (m =? 9) || (m =? 11))%Z then 30%Z
  else 31%Z.

Definition days_before_month (y m : Z) : Z :=
  fold_right Z.add 0%Z
    (map (fun i => days_in_month y (Z.of_nat i)) (seq 1 (Z.to_nat (m - 1)))).

Definition ymd2ord (y m d : Z) : Z :=
  (days_before_year y + days_before_month y m + d)%Z.

Definition timetuple (d : datetime) : struct_time :=
  {| tm_year := year d; tm_mon := month d; tm_mday := day d;
     tm_hour := hour d; tm_min := minute d; tm_sec := second d;
     tm_wday := ((ymd2ord (year d) (month d) (day d) + 6) mod 7)%Z;
     tm_yday := (days_before_month (year d) (month d) + day d)%Z;
     tm_isdst := (-1)%Z |}.

(** [int(x)] of a float: truncation towards zero. *)
Definition int (x : Q) : Z := Z.quot (Qnum x) (Zpos (Qden x)).

Section Module_.
Context {host : Host}.

Definition get_local_epoch_time : Z :=
  let d := now in
  int (mktime (timetuple d)).

Definition get_utc_epoch_time : Z :=
  let d := utcnow in
  int (mktime (timetuple d)).

End Module_.

(** ** Two conversions of a time tuple, to run the model

    [timegm] reads the tuple as UTC ([calendar.timegm]);
    [mktime_at offset] reads it as the local time of a zone that is
    [offset] seconds east of UTC and has no daylight saving. *)
Definition timegm (t : struct_time) : Z :=
  ((ymd2ord (tm_year t) (tm_mon t) (tm_mday t) - ymd2ord 1970 1 1) * 86400
   + tm_hour t * 3600 + tm_min t * 60 + tm_sec t)%Z.

Definition mktime_at (offset : Z) (t : struct_time) : Q :=
  inject_Z (timegm t - offset).

End TimeFunctions.

(* ===================================================================== *)
(** * Concrete collaborators, to run the models                           *)
(* ===================================================================== *)

Module Sample.

(** The lines, each ended by a line feed. *)
Definition text (lines : list string) : string :=
  fold_right (fun l rest => String.append l (String LF rest)) EmptyString lines.

(** A child process that starts and, at end of stream, has written [out]. *)
Definition device_writing (out : string) : Vyos.Device :=
  {| Vyos.spawn_error := fun _ => None;
     Vyos.read_to_eof := fun _ => Ret out |}.

Definition nothing_yet : Vyos.world := Vyos.World ∅ [].

(** An output of three lines. *)
Definition three_lines : string := text ["line 1"; "line 2"; "line 3"].

(** A [set] command and an output of seven lines that reports the path
    as already there. *)
Definition eth0_path : string := "interfaces ethernet eth0 address 1.2.3.4".
Definition eth0_command : string := "set" ++ " " ++ eth0_path.
Definition already_exists_line : string :=
  "  Configuration path: [" ++ eth0_path ++ "] already exists".
Definition already_exists_output : string :=
  text ["[edit]"; String.append "vyos@r1# " eth0_command; "[edit]";
        already_exists_line; "[edit]"; "vyos@r1# exit"; "logout"].

(** An [__execute_command] that sends the command on session 0 and
    returns [out]. *)
Definition execute_returning (out : string) : Vyos.PrivateExecute :=
  {| Vyos.private_execute :=
       fun command t => (Ret out, t ++ [Vyos.SendLine 0 command]) |}.

(** A session object carrying the attributes that [_commit], [_save],
    [_exit], [_set] and [_delete] use. *)
Definition session (conf_mode modified saved : bool) : object :=
  Object "Session"
    (<["__conf_mode" := VBool conf_mode]>
       (<["__session_modified" := VBool modified]>
          (<["__session_saved" := VBool saved]>
             (<["__execute_command" := VCallable "__execute_command"]> ∅)))).

Definition one_session (conf_mode modified saved : bool) : Vyos.world :=
  Vyos.World (<[0 := session conf_mode modified saved]> ∅) [].

(** A hypervisor whose state is the list of its domain names; a domain
    handle is an index in that list.  [connects] tells whether
    [libvirt.open] yields a connection or [None]; [known] tells whether
    [lookupByName] finds the domains. *)
Definition hypervisor (connects known : bool) : Virsh.Libvirt (list string) :=
  {| Virsh.lv_open := fun _ => ret (if connects then Some 0 else None);
     Virsh.listAllDomains := fun _ _ => let! names := gets id in
                                        ret (seq 0 (length names));
     Virsh.lookupByName := fun _ name =>
       let! names := gets id in
       match List.find (fun i => String.eqb (nth i names EmptyString) name)
                       (seq 0 (length names)) with
       | Some i => if known then ret i else raise (LibvirtError "lookup")
       | None => raise (LibvirtError "lookup")
       end;
     Virsh.conn_close := fun _ => ret tt;
     Virsh.dom_name := fun d => let! names := gets id in
                                ret (nth d names EmptyString);
     Virsh.dom_reboot := fun _ _ => ret tt;
     Virsh.dom_destroy := fun _ => ret tt;
     Virsh.dom_shutdown := fun _ => ret tt;
     Virsh.dom_create := fun _ => ret tt |}.

Definition three_domains : Virsh.world (list string) :=
  Virsh.World ["web1"; "web2"; "db1"] [].

(** A host one hour east of UTC, at 2017-07-14 02:40:00 UTC, which is
    1500000000 seconds after the epoch. *)
Definition host_east : TimeFunctions.Host :=
  {| TimeFunctions.now := TimeFunctions.Datetime 2017 7 14 3 40 0 0;
     TimeFunctions.utcnow := TimeFunctions.Datetime 2017 7 14 2 40 0 0;
     TimeFunctions.mktime := TimeFunctions.mktime_at 3600 |}.

(** Three lines that end in characters [execute_command] strips. *)
Definition lines_to_strip : string :=
  text ["uptime 3m"; "alarm [m"; "really?"].

(** A hypervisor that lists its domains and fails to name them. *)
Definition hypervisor_nameless : Virsh.Libvirt (list string) :=
  {| Virsh.lv_open := fun _ => ret (Some 0);
     Virsh.listAllDomains := fun _ _ => let! names := gets id in
                                        ret (seq 0 (length names));
     Virsh.lookupByName := fun _ _ => raise (LibvirtError "lookup");
     Virsh.conn_close := fun _ => ret tt;
     Virsh.dom_name := fun _ => raise (LibvirtError "name");
     Virsh.dom_reboot := fun _ _ => ret tt;
     Virsh.dom_destroy := fun _ => ret tt;
     Virsh.dom_shutdown := fun _ => ret tt;
     Virsh.dom_create := fun _ => ret tt |}.

Definition no_domains : Virsh.world (list string) := Virsh.World [] [].

(** A hypervisor that finds its domains and shuts them down, and
    refuses to destroy them. *)
Definition hypervisor_no_destroy : Virsh.Libvirt (list string) :=
  {| Virsh.lv_open := fun _ => ret (Some 0);
     Virsh.listAllDomains := fun _ _ => let! names := gets id in
                                        ret (seq 0 (length names));
     Virsh.lookupByName := fun _ name =>
       let! names := gets id in
       match List.find (fun i => String.eqb (nth i names EmptyString) name)
                       (seq 0 (length names)) with
       | Some i => ret i
       | None => raise (LibvirtError "lookup")
       end;
     Virsh.conn_close := fun _ => ret tt;
     Virsh.dom_name := fun d => let! names := gets id in
                                ret (nth d names EmptyString);
     Virsh.dom_reboot := fun _ _ => ret tt;
     Virsh.dom_destroy := fun _ => raise (LibvirtError "destroy");
     Virsh.dom_shutdown := fun _ => ret tt;
     Virsh.dom_create := fun _ => ret tt |}.

(** An output of the commit command that has both failure phrases. *)
Definition commit_failed_output : string :=
  "Commit failed: another commit in progress".

(** An output of four lines. *)
Definition four_lines : string :=
  text ["line 1"; "line 2"; "line 3"; "line 4"].

(** A child process that starts and never reaches the end of its
    stream: [expect] raises [TIMEOUT]. *)
Definition device_timing_out : Vyos.Device :=
  {| Vyos.spawn_error := fun _ => None;
     Vyos.read_to_eof := fun _ => Raise (PexpectError "TIMEOUT") |}.

(** A child process that cannot be started. *)
Definition device_not_starting : Vyos.Device :=
  {| Vyos.spawn_error := fun _ => Some (PexpectError "ExceptionPexpect");
     Vyos.read_to_eof := fun _ => Ret EmptyString |}.

End Sample.


(* ===================================================================== *)
(** * Notions used to state the properties                                *)
(* ===================================================================== *)

Module Notions.

(** The instance dictionary of a [Router] once [__init__] has run, with
    [h] the handle of its session. *)
Definition router_fields (h : nat) : gmap string val :=
  <["session" := VHandle h]>
    (<["codec" := VStr "utf8"]>
       (<["conf_mode" := VBool false]>
          (<["session_saved" := VBool true]>
             (<["session_modified" := VBool false]> ∅)))).

(** What [Router.__init__] does to the child process. *)
Definition router_opening (h : nat) : list Vyos.event :=
  [Vyos.Spawn h "su - vyos" false;
   Vyos.SendLine h "export TERM=xterm";
   Vyos.SendLine h "set terminal length 0"].

(** What the child process is sent for a configuration command. *)
Definition config_bracket (h : nat) (command : string) : list Vyos.event :=
  [Vyos.SendLine h "config"; Vyos.SendLine h command;
   Vyos.SendLine h "commit"; Vyos.SendLine h "save";
   Vyos.SendLine h "exit"; Vyos.SendLine h "exit"; Vyos.ExpectEOF h].

(** The lines [execute_command] keeps in configuration mode, in closed
    form: [range(1, 4)] deletes three lines at the top and [range(1, 3)]
    two at the bottom, and deleting from an empty list raises. *)
Definition config_mode_lines (output : list string) : res (list string) :=
  if (length output <? 3)%nat then Ret output
  else if (length output <? 5)%nat then Raise IndexError
  else Ret (removelast (removelast (skipn 3 output))).

(** A computation that leaves the instance dictionaries as they are. *)
Definition keeps_objs {A} (m : M Vyos.world A) : Prop :=
  forall w, Vyos.objs (snd (m w)) = Vyos.objs w.

(** The calls a holder of a router can make, and the store after a
    series of them; a call that raises is caught and the next one is
    made. *)
Inductive call : Type :=
  | CallExecute (command : string) (config_mode_required : bool)
  | CallStatus
  | CallClose.

Definition perform `{Vyos.Device} (self : nat) (c : call) (w : Vyos.world)
  : Vyos.world :=
  match c with
  | CallExecute command cfg => snd (Vyos.execute_command self command cfg w)
  | CallStatus => snd (Vyos.status self w)
  | CallClose => snd (Vyos.close_session self w)
  end.

Definition perform_all `{Vyos.Device} (self : nat) (calls : list call)
  (w : Vyos.world) : Vyos.world :=
  fold_left (fun w c => perform self c w) calls w.

(** The first token of a command, as [command.split()[0]] gives it:
    leading white space is skipped and the token ends at the next white
    space.  The code never computes it; the specification speaks of it. *)
Fixpoint take_token (s : string) : string :=
  match s with
  | EmptyString => EmptyString
  | String c s' => if ToyRe.is_space c then EmptyString
                   else String c (take_token s')
  end.

Fixpoint first_token (s : string) : string :=
  match s with
  | EmptyString => EmptyString
  | String c s' => if ToyRe.is_space c then first_token s' else take_token s
  end.

(** The flags [list] hands to [listAllDomains] for the three states it
    knows. *)
Definition state_code (state : string) : option Z :=
  if String.eqb state "all" then Some 0%Z
  else if String.eqb state "running" then Some 1%Z
  else if String.eqb state "shutdown" then Some 2%Z
  else None.

(** The pattern matches the name somewhere, ignoring case, with the
    multi-line and dot-matches-all flags. *)
Definition is_match `{ReLib} (pattern name : string) : bool :=
  match re_search pattern name (Z.lor (Z.lor re_I re_S) re_M) with
  | Ret true => true
  | _ => false
  end.

(** The pattern compiles: searching the names with it does not raise. *)
Definition compiles_on `{ReLib} (pattern : string) (names : list string)
  : bool :=
  forallb (fun name =>
             match re_search pattern name (Z.lor (Z.lor re_I re_S) re_M) with
             | Ret _ => true
             | Raise _ => false
             end) names.

(** The phrases the unwired functions look for in the output of a
    command. *)
Definition failure_phrases : list string :=
  ["Set\s+failed"; "already exists"; "Nothing\s+to\s+delete";
   "Commit\s+failed"; "another\s+commit\s+in\s+progress"].

(** A device that carries out every command: [__execute_command]
    returns, and its output has none of the failure phrases. *)
Definition obliging `{ReLib} `{Vyos.PrivateExecute} : Prop :=
  forall command t,
  exists out t',
    Vyos.private_execute command t = (Ret out, t')
    /\ forallb (fun phrase =>
                  match re_search phrase out 0 with
                  | Ret false => true
                  | _ => false
                  end) failure_phrases = true.

(** The three flags of a session, read as booleans; [None] when one of
    them is missing. *)
Definition flags_of (w : Vyos.world) (self : nat)
  : option (bool * bool * bool) :=
  match Vyos.objs w !! self with
  | Some o =>
      match fields o !! "__conf_mode", fields o !! "__session_modified",
            fields o !! "__session_saved" with
      | Some c, Some m, Some sv => Some (truthy c, truthy m, truthy sv)
      | _, _, _ => None
      end
  | None => None
  end.

(** The last character of a string, if it has one. *)
Definition last_char (s : string) : option ascii :=
  last (list_ascii_of_string s).

(** The instance dictionary of a [Router] whose [__init__] has reached
    the call of [pexpect.spawn]. *)
Definition router_fields_unspawned : gmap string val :=
  <["codec" := VStr "utf8"]>
    (<["conf_mode" := VBool false]>
       (<["session_saved" := VBool true]>
          (<["session_modified" := VBool false]> ∅))).

(** A store that holds one router, at address 0, just built. *)
Definition one_router : Vyos.world :=
  Vyos.World (<[0 := Object "Router" (router_fields 0)]> ∅)
             (router_opening 0).

(** [m] ensures [P]: whenever [m] returns, its value satisfies [P]. *)
Definition ensures {S A} (m : M S A) (P : A -> Prop) : Prop :=
  forall s, match fst (m s) with
            | Ret a => P a
            | Raise _ => True
            end.

(** [force is True] *)
Definition is_True (v : val) : bool :=
  match v with
  | VBool true => true
  | _ => false
  end.

(** The pattern compiles and matches none of the names. *)
Definition matches_none `{ReLib} (pattern : string) (names : list string)
  : bool :=
  forallb (fun name =>
             match re_search pattern name (Z.lor (Z.lor re_I re_S) re_M) with
             | Ret false => true
             | _ => false
             end) names.

(** ** What the callers of the [virsh] functions see *)

Section Outcomes.
Context {H : Type} {lv : Virsh.Libvirt H} {re : ReLib}.



End Outcomes.

End Notions.

(* ===================================================================== *)
(** * Properties of the Python fragment                                   *)
(* ===================================================================== *)

Lemma removelast_shorter {A} (l : list A) :
  length (removelast l) = length l - 1.
Proof.
  induction l as [|x l IH]; [reflexivity|].
  destruct l as [|y l]; [reflexivity|].
  change (S (length (removelast (y :: l))) = S (length (y :: l)) - 1).
  rewrite IH. cbn [length]. lia.
Qed.

Section PyFacts.
Context {S : Type}.

Lemma bind_ret {A B} (a : A) (k : A -> M S B) (s : S) :
  bind (ret a) k s = k a s.
Proof. reflexivity. Qed.

Lemma bind_raise {A B} (e : exn) (k : A -> M S B) (s : S) :
  bind (raise e) k s = (Raise e, s).
Proof. reflexivity. Qed.

Lemma bind_assoc {A B C} (m : M S A) (f : A -> M S B) (g : B -> M S C) s :
  bind (bind m f) g s = bind m (fun x => bind (f x) g) s.
Proof. unfold bind. destruct (m s) as [[a|e] s']; reflexivity. Qed.

(** Running [m] first: when it returns, the continuation goes on from
    the store it left. *)
Lemma bind_run {A B} (m : M S A) (k : A -> M S B) (s s' : S) (a : A) :
  m s = (Ret a, s') -> bind m k s = k a s'.
Proof. intros E. unfold bind. rewrite E. reflexivity. Qed.

Lemma bind_run_raise {A B} (m : M S A) (k : A -> M S B) (s s' : S) e :
  m s = (Raise e, s') -> bind m k s = (Raise e, s').
Proof. intros E. unfold bind. rewrite E. reflexivity. Qed.

End PyFacts.


(* ===================================================================== *)
(** * Properties of [src/vyos.py]                                         *)
(* ===================================================================== *)

Section VyosFacts.
Import Vyos Notions.
Context {dev : Device}.

(** Reading an attribute held by the instance dictionary. *)
Lemma getattr_field (w : world) (self : nat) (o : object) name v :
  objs w !! self = Some o ->
  fields o !! name = Some v ->
  getattr self name w = (Ret v, w).
Proof.
  intros Ho Hf. unfold getattr, bind, gets. rewrite Ho, Hf. reflexivity.
Qed.

(** Reading an attribute that neither the instance nor its class has. *)
Lemma getattr_missing (w : world) (self : nat) (o : object) name :
  objs w !! self = Some o ->
  fields o !! name = None ->
  existsb (String.eqb name) (class_attrs (class_of o)) = false ->
  getattr self name w = (Raise (AttributeError name), w).
Proof.
  intros Ho Hf Hc. unfold getattr, bind, gets. rewrite Ho, Hf, Hc.
  reflexivity.
Qed.

Lemma session_sendline_run (w : world) (self : nat) (o : object) h line :
  objs w !! self = Some o ->
  fields o !! "session" = Some (VHandle h) ->
  session_sendline self line w
  = (Ret tt, World (objs w) (trace w ++ [SendLine h line])).
Proof.
  intros Ho Hf. unfold session_sendline.
  rewrite (bind_run _ _ _ _ _ (getattr_field _ _ _ _ _ Ho Hf)).
  reflexivity.
Qed.

Lemma expect_EOF_run (w : world) h before :
  read_to_eof (trace w ++ [ExpectEOF h]) = Ret before ->
  expect_EOF (VHandle h) w
  = (Ret before, World (objs w) (trace w ++ [ExpectEOF h])).
Proof.
  intros Hread. unfold expect_EOF, record, modify, gets, bind. cbn.
  rewrite Hread. reflexivity.
Qed.

Lemma expect_EOF_run_raise (w : world) h e :
  read_to_eof (trace w ++ [ExpectEOF h]) = Raise e ->
  expect_EOF (VHandle h) w
  = (Raise e, World (objs w) (trace w ++ [ExpectEOF h])).
Proof.
  intros Hread. unfold expect_EOF, record, modify, gets, bind. cbn.
  rewrite Hread. reflexivity.
Qed.

(** What [execute_command] returns in operational mode: the lines of
    the output, right-stripped, without the last one when there are at
    least three. *)
Lemma execute_command_op_mode (w : world) (self : nat) (o : object) h
    command before :
  objs w !! self = Some o ->
  fields o !! "session" = Some (VHandle h) ->
  read_to_eof (trace w ++ [SendLine h command; SendLine h "exit"; ExpectEOF h])
  = Ret before ->
  let output := map (rstrip "?[m") (splitlines before) in
  execute_command self command false w
  = (Ret (if (3 <=? length output)%nat then removelast output else output),
     World (objs w)
           (trace w ++ [SendLine h command; SendLine h "exit"; ExpectEOF h])).
Proof.
  intros Ho Hf Hread output.
  replace (trace w ++ [SendLine h command; SendLine h "exit"; ExpectEOF h])
    with (((trace w ++ [SendLine h command]) ++ [SendLine h "exit"])
            ++ [ExpectEOF h]) in *
    by (rewrite <- !app_assoc; reflexivity).
  unfold execute_command.
  rewrite (bind_run _ _ _ _ _
             (bind_run _ _ _ _ _ (session_sendline_run _ _ _ _ command Ho Hf))).
  cbn [fst snd]. cbn beta.
  rewrite (bind_run _ _ _ _ _
             (session_sendline_run (World _ _) self o h "exit" Ho Hf)).
  rewrite (bind_run _ _ _ _ _
             (getattr_field (World _ _) self o "session" _ Ho Hf)).
  rewrite (bind_run _ _ _ _ _ (expect_EOF_run (World _ _) h before Hread)).
  subst output. generalize (map (rstrip "?[m") (splitlines before)).
  intros output.
  destruct (3 <=? length output)%nat eqn:Hlen; [|reflexivity].
  destruct output as [|x l]; [discriminate|]. reflexivity.
Qed.

Lemma alter_present (m : gmap nat object) (f : object -> object) i o :
  m !! i = Some o -> alter f i m = <[i := f o]> m.
Proof.
  intros Hi. apply map_eq. intros j.
  destruct (decide (i = j)) as [<-|Hne].
  - rewrite lookup_alter_eq, lookup_insert_eq, Hi. reflexivity.
  - rewrite lookup_alter_ne, lookup_insert_ne by assumption. reflexivity.
Qed.

(** Assigning an attribute of an existing instance. *)
Lemma setattr_run (w : world) (self : nat) (o : object) name v :
  objs w !! self = Some o ->
  setattr self name v w
  = (Ret tt,
     World (<[self := Object (class_of o) (<[name := v]> (fields o))]> (objs w))
           (trace w)).
Proof.
  intros Ho. unfold setattr, modify.
  rewrite (alter_present _ _ _ _ Ho). reflexivity.
Qed.

Lemma allocate_run (w : world) cls :
  allocate cls w
  = (Ret (fresh (dom (objs w))),
     World (<[fresh (dom (objs w)) := Object cls ∅]> (objs w)) (trace w)).
Proof. reflexivity. Qed.

Lemma spawn_run (w : world) command echo :
  spawn_error (trace w) = None ->
  let h := length (List.filter is_spawn (trace w)) in
  spawn command echo w
  = (Ret (VHandle h), World (objs w) (trace w ++ [Spawn h command echo])).
Proof.
  intros Hspawn h. unfold spawn, gets, bind. cbn. rewrite Hspawn. reflexivity.
Qed.

(** One assignment of [__init__], on the instance just stored at [self]. *)
Local Ltac assign :=
  erewrite bind_run by (apply setattr_run; apply lookup_insert_eq);
  cbn [objs trace class_of fields]; rewrite insert_insert_eq.

(** [Router()] when the child process starts: a new instance with the
    five attributes of [__init__], and the session opened. *)
Lemma Router_run (w : world) :
  spawn_error (trace w) = None ->
  let self := fresh (dom (objs w)) in
  let h := length (List.filter is_spawn (trace w)) in
  Router w
  = (Ret self,
     World (<[self := Object "Router" (router_fields h)]> (objs w))
           (trace w ++ router_opening h)).
Proof.
  intros Hspawn self h. unfold Router.
  rewrite (bind_run _ _ _ _ _ (allocate_run w "Router")). fold self.
  do 4 assign.
  rewrite (bind_run _ _ _ _ _ (spawn_run (World _ _) "su - vyos" false Hspawn)).
  cbn [objs trace]. fold h.
  assign. fold (router_fields h).
  erewrite bind_run
    by (eapply session_sendline_run; [apply lookup_insert_eq | reflexivity]).
  erewrite bind_run
    by (eapply session_sendline_run; [apply lookup_insert_eq | reflexivity]).
  cbn [objs trace]. unfold ret, router_opening.
  rewrite <- !app_assoc. reflexivity.
Qed.

(** [Router()] when the child process cannot be started: the exception
    of [pexpect.spawn] ends [__init__] after four assignments, and
    nothing has been done to any child process. *)
Lemma Router_fails (w : world) e :
  spawn_error (trace w) = Some e ->
  Router w
  = (Raise e,
     World (<[fresh (dom (objs w)) := Object "Router" router_fields_unspawned]>
              (objs w))
           (trace w)).
Proof.
  intros Hspawn. unfold Router.
  rewrite (bind_run _ _ _ _ _ (allocate_run w "Router")).
  do 4 (erewrite bind_run by (apply setattr_run; apply lookup_insert_eq);
        cbn [objs trace class_of fields]; rewrite insert_insert_eq).
  apply bind_run_raise. unfold spawn, bind, gets. cbn [trace fst snd].
  rewrite Hspawn. reflexivity.
Qed.

Lemma Router_run_raise (w : world) e :
  spawn_error (trace w) = Some e ->
  fst (Router w) = Raise e.
Proof.
  intros Hspawn. unfold Router.
  rewrite (bind_run _ _ _ _ _ (allocate_run w "Router")).
  do 4 assign.
  unfold bind at 1, spawn at 1, bind at 1, gets. cbn [trace].
  rewrite Hspawn. reflexivity.
Qed.

(** X1. In operational mode the number of lines returned is [N - 1] when
    the output has [N >= 3] lines, and [N] otherwise: [range(1, 1)] is
    empty and [range(1, 2)] has one element. *)
Lemma execute_command_op_mode_length (w : world) (self : nat) (o : object) h
    command before :
  objs w !! self = Some o ->
  fields o !! "session" = Some (VHandle h) ->
  read_to_eof (trace w ++ [SendLine h command; SendLine h "exit"; ExpectEOF h])
  = Ret before ->
  exists output,
    fst (execute_command self command false w) = Ret output
    /\ length output
       = if (3 <=? length (splitlines before))%nat
         then length (splitlines before) - 1
         else length (splitlines before).
Proof.
  intros Ho Hf Hread.
  rewrite (execute_command_op_mode _ _ _ _ _ _ Ho Hf Hread). cbn [fst].
  eexists. split; [reflexivity|].
  rewrite <- (length_map (rstrip "?[m") (splitlines before)).
  destruct (3 <=? length (map (rstrip "?[m") (splitlines before)))%nat;
    [apply removelast_shorter | reflexivity].
Qed.

Lemma execute_command_op_mode_raise (w : world) (self : nat) (o : object) h
    command e :
  objs w !! self = Some o ->
  fields o !! "session" = Some (VHandle h) ->
  read_to_eof (trace w ++ [SendLine h command; SendLine h "exit"; ExpectEOF h])
  = Raise e ->
  execute_command self command false w
  = (Raise e,
     World (objs w)
           (trace w ++ [SendLine h command; SendLine h "exit"; ExpectEOF h])).
Proof.
  intros Ho Hf Hread.
  replace (trace w ++ [SendLine h command; SendLine h "exit"; ExpectEOF h])
    with (((trace w ++ [SendLine h command]) ++ [SendLine h "exit"])
            ++ [ExpectEOF h]) in *
    by (rewrite <- !app_assoc; reflexivity).
  unfold execute_command.
  rewrite (bind_run _ _ _ _ _
             (bind_run _ _ _ _ _ (session_sendline_run _ _ _ _ command Ho Hf))).
  cbn [fst snd]. cbn beta.
  rewrite (bind_run _ _ _ _ _
             (session_sendline_run (World _ _) self o h "exit" Ho Hf)).
  rewrite (bind_run _ _ _ _ _
             (getattr_field (World _ _) self o "session" _ Ho Hf)).
  apply bind_run_raise. apply (expect_EOF_run_raise (World _ _)). exact Hread.
Qed.

Lemma close_session_run (w : world) (self : nat) (o : object) h :
  objs w !! self = Some o ->
  fields o !! "session" = Some (VHandle h) ->
  close_session self w
  = (Ret tt, World (objs w) (trace w ++ [Close h; Terminate h true])).
Proof.
  intros Ho Hf. unfold close_session.
  rewrite (bind_run _ _ _ _ _ (getattr_field _ _ _ _ _ Ho Hf)).
  unfold close at 1, record, modify, bind at 1. 
  rewrite (bind_run _ _ _ _ _ (getattr_field (World _ _) self o _ _ Ho Hf)).
  unfold terminate, record, modify. cbn [objs trace].
  rewrite <- app_assoc. reflexivity.
Qed.

(** ** The attributes of a router are assigned by [__init__] only *)

Create HintDb keeps discriminated.

Lemma keeps_ret {A} (a : A) : keeps_objs (ret a).
Proof. intros w. reflexivity. Qed.

Lemma keeps_raise {A} (e : exn) : keeps_objs (@raise world A e).
Proof. intros w. reflexivity. Qed.

Lemma keeps_bind {A B} (m : M world A) (k : A -> M world B) :
  keeps_objs m -> (forall a, keeps_objs (k a)) -> keeps_objs (bind m k).
Proof.
  intros Hm Hk w. unfold bind. specialize (Hm w).
  destruct (m w) as [[a|e] w1]; cbn [snd] in *; [|exact Hm].
  rewrite (Hk a w1). exact Hm.
Qed.

Lemma keeps_branch {A} (c : bool) (m1 m2 : M world A) :
  keeps_objs m1 -> keeps_objs m2 -> keeps_objs (if c then m1 else m2).
Proof. destruct c; auto. Qed.

Lemma keeps_record (e : event) : keeps_objs (record e).
Proof. intros w. reflexivity. Qed.

Lemma keeps_gets_trace : keeps_objs (gets trace).
Proof. intros w. reflexivity. Qed.

Lemma keeps_getattr (self : nat) name : keeps_objs (getattr self name).
Proof.
  intros w. unfold getattr, bind, gets.
  destruct (objs w !! self) as [o|]; [|reflexivity].
  destruct (fields o !! name); [reflexivity|].
  destruct (existsb _ _); reflexivity.
Qed.

Lemma keeps_sendline session line : keeps_objs (sendline session line).
Proof. destruct session; intros w; reflexivity. Qed.

Lemma keeps_close session : keeps_objs (close session).
Proof. destruct session; intros w; reflexivity. Qed.

Lemma keeps_terminate session force : keeps_objs (terminate session force).
Proof. destruct session; intros w; reflexivity. Qed.

Lemma keeps_expect_EOF session : keeps_objs (expect_EOF session).
Proof.
  destruct session; try (intros w; reflexivity).
  intros w. unfold expect_EOF, record, modify, gets, bind. cbn.
  destruct (read_to_eof _); reflexivity.
Qed.

Lemma keeps_del_first (l : list string) : keeps_objs (del_first l).
Proof. destruct l; intros w; reflexivity. Qed.

Lemma keeps_del_last (l : list string) : keeps_objs (del_last l).
Proof. destruct l; intros w; reflexivity. Qed.

Lemma keeps_for_each {A B} (xs : list B) (body : A -> B -> M world A) acc :
  (forall a x, keeps_objs (body a x)) -> keeps_objs (for_each xs body acc).
Proof.
  intros Hbody. revert acc.
  induction xs as [|x xs IH]; intros acc; cbn [for_each].
  - apply keeps_ret.
  - apply keeps_bind; [apply Hbody | exact IH].
Qed.

#[local] Hint Resolve keeps_ret keeps_raise keeps_bind keeps_branch
  keeps_record keeps_gets_trace keeps_getattr keeps_sendline keeps_close
  keeps_terminate keeps_expect_EOF keeps_del_first keeps_del_last
  keeps_for_each : keeps.

Lemma keeps_session_sendline self line :
  keeps_objs (session_sendline self line).
Proof. unfold session_sendline. auto with keeps. Qed.

#[local] Hint Resolve keeps_session_sendline : keeps.

Lemma keeps_execute_command self command cfg :
  keeps_objs (execute_command self command cfg).
Proof. unfold execute_command. destruct cfg; auto 20 with keeps. Qed.

Lemma keeps_status self : keeps_objs (status self).
Proof. unfold status. auto 10 with keeps. Qed.

Lemma keeps_close_session self : keeps_objs (close_session self).
Proof. unfold close_session. auto 10 with keeps. Qed.

Lemma perform_all_keeps_objs self calls (w : world) :
  objs (perform_all self calls w) = objs w.
Proof.
  revert w. induction calls as [|c calls IH]; intros w; [reflexivity|].
  cbn [perform_all fold_left]. fold (perform_all self calls (perform self c w)).
  rewrite IH. destruct c; cbn [perform].
  - apply keeps_execute_command.
  - apply keeps_status.
  - apply keeps_close_session.
Qed.

(** X16. Whatever calls were made on a router since [__init__], [status]
    raises [AttributeError]: no method assigns [logged_in]. *)
Lemma status_raises_after_calls (w : world) (self h : nat) calls :
  objs w !! self = Some (Object "Router" (router_fields h)) ->
  status self (perform_all self calls w)
  = (Raise (AttributeError "logged_in"), perform_all self calls w).
Proof.
  intros Ho. unfold status. apply bind_run_raise.
  eapply getattr_missing;
    [rewrite perform_all_keeps_objs; exact Ho | reflexivity..].
Qed.

(** ** [run_op_mode_command] *)

(** A command with the prefix [show], on a device that starts: the
    router is built, the command is sent after a blank, and the run
    ends either with the lines returned and the session closed, or with
    the exception of [expect] and the session left open. *)
Lemma run_op_mode_command_accepted (w : world) command :
  startswith command "show" = true ->
  spawn_error (trace w) = None ->
  let self := fresh (dom (objs w)) in
  let h := length (List.filter is_spawn (trace w)) in
  let sent := trace w ++ router_opening h
              ++ [SendLine h (" " ++ command); SendLine h "exit"; ExpectEOF h] in
  let os := <[self := Object "Router" (router_fields h)]> (objs w) in
  run_op_mode_command command w
  = match read_to_eof sent with
    | Ret before =>
        let output := map (rstrip "?[m") (splitlines before) in
        (Ret (VList (if (3 <=? length output)%nat
                     then removelast output else output)),
         World os (sent ++ [Close h; Terminate h true]))
    | Raise e => (Raise e, World os sent)
    end.
Proof.
  intros Hshow Hspawn self h sent os. unfold run_op_mode_command.
  rewrite Hshow. rewrite (bind_run _ _ _ _ _ (Router_run w Hspawn)).
  fold self h os.
  assert (Ho : objs (World os (trace w ++ router_opening h)) !! self
               = Some (Object "Router" (router_fields h)))
    by apply lookup_insert_eq.
  assert (Hf : fields (Object "Router" (router_fields h)) !! "session"
               = Some (VHandle h)) by reflexivity.
  erewrite bind_run by (eapply getattr_field; [exact Ho | reflexivity]).
  cbn [truthy].
  assert (Hsent : trace (World os (trace w ++ router_opening h))
                  ++ [SendLine h (" " ++ command); SendLine h "exit";
                      ExpectEOF h] = sent)
    by (cbn [trace]; unfold sent; rewrite <- app_assoc; reflexivity).
  destruct (read_to_eof sent) as [before|e] eqn:Hread.
  - rewrite <- Hsent in Hread.
    rewrite (bind_run _ _ _ _ _
               (execute_command_op_mode _ _ _ _ _ _ Ho Hf Hread)).
    rewrite Hsent. cbn [objs].
    rewrite (bind_run _ _ _ _ _
               (close_session_run (World os sent) self _ h Ho Hf)).
    reflexivity.
  - rewrite <- Hsent in Hread.
    rewrite (bind_run_raise _ _ _ _ _
               (execute_command_op_mode_raise _ _ _ _ _ _ Ho Hf Hread)).
    rewrite Hsent. reflexivity.
Qed.

(** ** [run_config_mode_command] *)

Lemma execute_command_config_mode (w : world) (self : nat) (o : object) h
    command before :
  objs w !! self = Some o ->
  fields o !! "session" = Some (VHandle h) ->
  read_to_eof (trace w ++ config_bracket h command) = Ret before ->
  execute_command self command true w
  = (config_mode_lines (map (rstrip "?[m") (splitlines before)),
     World (objs w) (trace w ++ config_bracket h command)).
Proof.
  intros Ho Hf Hread. unfold config_bracket in *.
  replace (trace w ++ [SendLine h "config"; SendLine h command;
                       SendLine h "commit"; SendLine h "save";
                       SendLine h "exit"; SendLine h "exit"; ExpectEOF h])
    with (((((((trace w ++ [SendLine h "config"]) ++ [SendLine h command])
               ++ [SendLine h "commit"]) ++ [SendLine h "save"])
             ++ [SendLine h "exit"]) ++ [SendLine h "exit"]) ++ [ExpectEOF h])
    in * by (rewrite <- !app_assoc; reflexivity).
  unfold execute_command.
  pose proof (fun w' line => session_sendline_run (World (objs w) w') self o h
                               line Ho Hf) as Hsend.
  cbn [objs trace] in Hsend.
  rewrite !bind_assoc.
  rewrite (bind_run _ _ _ _ _ (session_sendline_run _ _ _ _ "config" Ho Hf)).
  rewrite !bind_assoc. rewrite (bind_run _ _ _ _ _ (Hsend _ command)).
  rewrite !bind_assoc. rewrite (bind_run _ _ _ _ _ (Hsend _ "commit")).
  rewrite !bind_assoc. rewrite (bind_run _ _ _ _ _ (Hsend _ "save")).
  rewrite !bind_assoc. rewrite (bind_run _ _ _ _ _ (Hsend _ "exit")).
  rewrite bind_ret. cbn [fst snd]. cbn beta.
  rewrite (bind_run _ _ _ _ _ (Hsend _ "exit")).
  rewrite (bind_run _ _ _ _ _
             (getattr_field (World _ _) self o "session" _ Ho Hf)).
  rewrite (bind_run _ _ _ _ _ (expect_EOF_run (World _ _) h before Hread)).
  generalize (map (rstrip "?[m") (splitlines before)). intros output.
  destruct output as [|l1 [|l2 [|l3 [|l4 [|l5 output]]]]]; reflexivity.
Qed.

(** An accepted configuration command, on a device that starts and
    answers: the router is built, the command is sent inside the
    configuration bracket, and the lines are returned whatever they
    say; the instance keeps the attributes [__init__] gave it. *)
Lemma run_config_mode_command_accepted (w : world) command save_changes
    before :
  startswith_any command config_prefixes = true ->
  spawn_error (trace w) = None ->
  let self := fresh (dom (objs w)) in
  let h := length (List.filter is_spawn (trace w)) in
  let sent := trace w ++ router_opening h ++ config_bracket h command in
  let os := <[self := Object "Router" (router_fields h)]> (objs w) in
  read_to_eof sent = Ret before ->
  run_config_mode_command command save_changes w
  = match config_mode_lines (map (rstrip "?[m") (splitlines before)) with
    | Ret output =>
        (Ret (VList output), World os (sent ++ [Close h; Terminate h true]))
    | Raise e => (Raise e, World os sent)
    end.
Proof.
  intros Hprefix Hspawn self h sent os Hread.
  unfold run_config_mode_command.
  rewrite Hprefix. rewrite (bind_run _ _ _ _ _ (Router_run w Hspawn)).
  fold self h os.
  assert (Ho : objs (World os (trace w ++ router_opening h)) !! self
               = Some (Object "Router" (router_fields h)))
    by apply lookup_insert_eq.
  assert (Hf : fields (Object "Router" (router_fields h)) !! "session"
               = Some (VHandle h)) by reflexivity.
  assert (Hsent : trace (World os (trace w ++ router_opening h))
                  ++ config_bracket h command = sent)
    by (cbn [trace]; unfold sent; rewrite <- app_assoc; reflexivity).
  rewrite <- Hsent in Hread.
  pose proof (execute_command_config_mode _ _ _ _ _ _ Ho Hf Hread) as Hexec.
  rewrite Hsent in Hexec. cbn [objs] in Hexec.
  destruct (config_mode_lines (map (rstrip "?[m") (splitlines before)))
    as [output|e].
  - rewrite (bind_run _ _ _ _ _ Hexec).
    rewrite (bind_run _ _ _ _ _
               (close_session_run (World os sent) self _ h Ho Hf)).
    reflexivity.
  - rewrite (bind_run_raise _ _ _ _ _ Hexec). reflexivity.
Qed.

End VyosFacts.

Section UnwiredFacts.
Import Vyos Notions.
Context {re : ReLib} {px : PrivateExecute}.

(** [self.__execute_command(command)] on an instance that has the
    method: the call only acts on the child process. *)
Lemma call_execute_command_run (w : world) (self : nat) (o : object) n
    command r t :
  objs w !! self = Some o ->
  fields o !! "__execute_command" = Some (VCallable n) ->
  private_execute command (trace w) = (r, t) ->
  call_execute_command self command w = (r, World (objs w) t).
Proof.
  intros Ho Hf Hcall. unfold call_execute_command.
  rewrite (bind_run _ _ _ _ _ (getattr_field _ _ _ _ _ Ho Hf)).
  rewrite Hcall. reflexivity.
Qed.

Lemma search_run (w : world) pattern output b :
  re_search pattern output 0 = Ret b ->
  search pattern output w = (Ret b, w).
Proof. intros E. unfold search. rewrite E. reflexivity. Qed.

(** X15. [_exit] without [force] refuses to leave configuration mode while
    there are uncommitted or unsaved changes, and changes nothing. *)
Lemma exit_refused (w : world) (self : nat) (o : object) c m sv :
  objs w !! self = Some o ->
  fields o !! "__conf_mode" = Some c -> truthy c = true ->
  fields o !! "__session_modified" = Some m ->
  fields o !! "__session_saved" = Some sv ->
  truthy m = true \/ truthy sv = false ->
  exists msg, _exit self false w = (Raise (VyOSError msg), w).
Proof.
  intros Ho Hc Tc Hm Hs Hdirty. unfold _exit.
  rewrite (bind_run _ _ _ _ _ (getattr_field _ _ _ _ _ Ho Hc)), Tc.
  cbn [negb].
  rewrite (bind_run _ _ _ _ _ (getattr_field _ _ _ _ _ Ho Hm)).
  destruct (truthy m) eqn:Tm.
  - eexists. reflexivity.
  - destruct Hdirty as [|Ts]; [discriminate|].
    rewrite (bind_run _ _ _ _ _ (getattr_field _ _ _ _ _ Ho Hs)), Ts.
    eexists. reflexivity.
Qed.

(** [_exit] with [force], when the exit command goes through: the
    session leaves configuration mode, and that is the only attribute
    assigned. *)
Lemma exit_forced (w : world) (self : nat) (o : object) c m sv n out t :
  objs w !! self = Some o ->
  fields o !! "__conf_mode" = Some c -> truthy c = true ->
  fields o !! "__session_modified" = Some m ->
  fields o !! "__session_saved" = Some sv ->
  fields o !! "__execute_command" = Some (VCallable n) ->
  private_execute (if truthy m then "exit discard" else "exit") (trace w)
  = (Ret out, t) ->
  _exit self true w
  = (Ret VNone,
     World (<[self := Object (class_of o)
                             (<["__conf_mode" := VBool false]> (fields o))]>
              (objs w)) t).
Proof.
  intros Ho Hc Tc Hm Hs Hx Hcall. unfold _exit.
  rewrite (bind_run _ _ _ _ _ (getattr_field _ _ _ _ _ Ho Hc)), Tc.
  cbn [negb].
  rewrite (bind_run _ _ _ _ _ (getattr_field _ _ _ _ _ Ho Hm)).
  destruct (truthy m) eqn:Tm; cbn [negb].
  - rewrite (bind_run _ _ _ _ _
               (call_execute_command_run _ _ _ _ _ _ _ Ho Hx Hcall)).
    rewrite (bind_run _ _ _ _ _ (setattr_run (World _ _) _ _ _ _ Ho)).
    reflexivity.
  - rewrite (bind_run _ _ _ _ _ (getattr_field _ _ _ _ _ Ho Hs)).
    rewrite andb_false_r.
    rewrite (bind_run _ _ _ _ _
               (call_execute_command_run _ _ _ _ _ _ _ Ho Hx Hcall)).
    rewrite (bind_run _ _ _ _ _ (setattr_run (World _ _) _ _ _ _ Ho)).
    reflexivity.
Qed.

(** After a forced exit the flag [__session_modified] still has the
    value it had: nothing clears it. *)
Lemma exit_forced_keeps_modified (w : world) (self : nat) (o : object)
    c m sv n out t :
  objs w !! self = Some o ->
  fields o !! "__conf_mode" = Some c -> truthy c = true ->
  fields o !! "__session_modified" = Some m ->
  fields o !! "__session_saved" = Some sv ->
  fields o !! "__execute_command" = Some (VCallable n) ->
  private_execute (if truthy m then "exit discard" else "exit") (trace w)
  = (Ret out, t) ->
  let w' := snd (_exit self true w) in
  getattr self "__conf_mode" w' = (Ret (VBool false), w')
  /\ getattr self "__session_modified" w' = (Ret m, w').
Proof.
  intros Ho Hc Tc Hm Hs Hx Hcall.
  rewrite (exit_forced _ _ _ _ _ _ _ _ _ Ho Hc Tc Hm Hs Hx Hcall).
  cbn [snd]. split.
  - eapply getattr_field; [apply lookup_insert_eq | apply lookup_insert_eq].
  - eapply getattr_field; [apply lookup_insert_eq|].
    cbn [fields]. rewrite lookup_insert_ne by discriminate. exact Hm.
Qed.

End UnwiredFacts.

(* ===================================================================== *)
(** * The stated properties of [src/vyos.py]                              *)
(* ===================================================================== *)

Section VyosClaims.
Import Vyos Notions.
Context {dev : Device} {re : ReLib} {px : PrivateExecute}.

(** C8. In configuration mode with uncommitted changes
    ([__session_modified] true), [_save] raises [VyOSError] and the store
    it leaves is the store it found: no attribute is assigned and
    nothing is sent to the child process. *)
Theorem save_refused_when_modified (w : world) (self : nat) (o : object) c m :
  objs w !! self = Some o ->
  fields o !! "__conf_mode" = Some c -> truthy c = true ->
  fields o !! "__session_modified" = Some m -> truthy m = true ->
  exists msg, _save self w = (Raise (VyOSError msg), w).
Proof.
  intros Ho Hc Tc Hm Tm. unfold _save.
  rewrite (bind_run _ _ _ _ _ (getattr_field _ _ _ _ _ Ho Hc)), Tc.
  cbn [negb].
  rewrite (bind_run _ _ _ _ _ (getattr_field _ _ _ _ _ Ho Hm)), Tm.
  eexists. reflexivity.
Qed.

(** C9. A command that starts with none of the configuration prefixes
    makes [run_config_mode_command] return [None]: nothing is raised,
    no router is built and nothing is sent. *)
Theorem run_config_mode_command_falls_through (w : world) command
    save_changes :
  startswith_any command config_prefixes = false ->
  run_config_mode_command command save_changes w = (Ret VNone, w).
Proof.
  intros Hprefix. unfold run_config_mode_command. rewrite Hprefix.
  reflexivity.
Qed.

(** C10. On a router that [Router()] has just returned, [status()]
    raises [AttributeError] for [logged_in], the first attribute it
    reads: [__init__] does not assign it and the class does not define
    it. *)
Theorem status_raises_AttributeError (w w1 : world) (self : nat) :
  Router w = (Ret self, w1) ->
  status self w1 = (Raise (AttributeError "logged_in"), w1).
Proof.
  intros Hnew.
  destruct (spawn_error (trace w)) as [e|] eqn:Hspawn.
  - pose proof (Router_run_raise w e Hspawn) as Hraise.
    rewrite Hnew in Hraise. discriminate.
  - rewrite (Router_run w Hspawn) in Hnew. injection Hnew as <- <-.
    unfold status. apply bind_run_raise.
    eapply getattr_missing; [apply lookup_insert_eq | reflexivity..].
Qed.

(** C5, as amended.  [run_op_mode_command] tests the characters of the
    command, not its tokens.  A command that does not start with the
    four characters [show] is answered with the message (returned, not
    raised) and the store is untouched, so no session is opened,
    whatever the device.  A command that starts with them is accepted
    whatever follows: a router is built, and either the child process
    starts and the command is sent to the new session after a blank, or
    [pexpect.spawn] raises and its exception ends the call with nothing
    sent. *)
Theorem run_op_mode_command_prefix_gate (w : world) command :
  if startswith command "show"
  then match spawn_error (trace w) with
       | None =>
           exists rest,
             trace (snd (run_op_mode_command command w))
             = trace w
               ++ router_opening (length (List.filter is_spawn (trace w)))
               ++ SendLine (length (List.filter is_spawn (trace w)))
                           (" " ++ command) :: rest
       | Some e =>
           fst (run_op_mode_command command w) = Raise e
           /\ trace (snd (run_op_mode_command command w)) = trace w
       end
  else run_op_mode_command command w = (Ret (VStr op_mode_message), w).
Proof.
  destruct (startswith command "show") eqn:Hshow.
  - destruct (spawn_error (trace w)) as [e|] eqn:Hspawn.
    + unfold run_op_mode_command. rewrite Hshow.
      rewrite (bind_run_raise _ _ _ _ _ (Router_fails w e Hspawn)).
      split; reflexivity.
    + rewrite (run_op_mode_command_accepted w command Hshow Hspawn).
      destruct (read_to_eof _); cbn [snd trace];
        rewrite <- ?app_assoc; eexists; reflexivity.
  - unfold run_op_mode_command. rewrite Hshow. reflexivity.
Qed.

(** C4, as amended.  Whatever the device writes, [already exists]
    included, [run_config_mode_command] does not look at it: when the
    trimming of the lines goes through it returns them, no error is
    raised, and [session_modified] of its router is still [False].
    It is the unwired [_set] that raises [ConfigError] when the output of
    its command has [already exists], leaving every attribute as it was. *)
Theorem already_exists_only_seen_by_set
    (w : world) command save_changes before lines
    (ws : world) (self : nat) (o : object) c n path out t b :
  startswith_any command config_prefixes = true ->
  spawn_error (trace w) = None ->
  read_to_eof (trace w
               ++ router_opening (length (List.filter is_spawn (trace w)))
               ++ config_bracket (length (List.filter is_spawn (trace w)))
                                 command) = Ret before ->
  config_mode_lines (map (rstrip "?[m") (splitlines before)) = Ret lines ->
  objs ws !! self = Some o ->
  fields o !! "__conf_mode" = Some c -> truthy c = true ->
  fields o !! "__execute_command" = Some (VCallable n) ->
  private_execute ("set" ++ " " ++ path) (trace ws) = (Ret out, t) ->
  re_search "Set\s+failed" out 0 = Ret b ->
  re_search "already exists" out 0 = Ret true ->
  (exists w',
     run_config_mode_command command save_changes w = (Ret (VList lines), w')
     /\ getattr (fresh (dom (objs w))) "session_modified" w'
        = (Ret (VBool false), w'))
  /\ (exists msg,
        _set self path ws = (Raise (ConfigError msg), World (objs ws) t)).
Proof.
  intros Hprefix Hspawn Hread Hlines Ho Hc Tc Hx Hcall Hfailed Hexists.
  split.
  - rewrite (run_config_mode_command_accepted w command save_changes before
               Hprefix Hspawn Hread), Hlines.
    eexists. split; [reflexivity|].
    eapply getattr_field; [apply lookup_insert_eq | reflexivity].
  - unfold _set.
    rewrite (bind_run _ _ _ _ _ (getattr_field _ _ _ _ _ Ho Hc)), Tc.
    cbn [negb].
    rewrite (bind_run _ _ _ _ _
               (call_execute_command_run _ _ _ _ _ _ _ Ho Hx Hcall)).
    rewrite (bind_run _ _ _ _ _ (search_run (World _ _) _ _ _ Hfailed)).
    destruct b; [eexists; reflexivity|].
    rewrite (bind_run _ _ _ _ _ (search_run (World _ _) _ _ _ Hexists)).
    eexists. reflexivity.
Qed.

End VyosClaims.

(** ** The properties at concrete inputs *)

Section VyosRuns.
Import Vyos Notions Sample.

(** C1.  The code at an output of exactly three lines, in operational
    mode: [execute_command] returns two lines, the first and the second,
    where the claim has [3 - 3 = 0]; only the last line is deleted. *)
Theorem execute_command_drops_one_line :
  let dev := device_writing three_lines in
  length (splitlines three_lines) = 3
  /\ fst ((let! router := Router in
           execute_command router "show version" false) nothing_yet)
     = Ret ["line 1"; "line 2"].
Proof. split; vm_compute; reflexivity. Qed.

(** C3.  The code at a session in configuration mode with uncommitted
    changes, on a forced exit: the session leaves configuration mode,
    and [__session_modified] is still true afterwards. *)
Theorem forced_exit_keeps_modified_flag :
  let px := execute_returning "ok" in
  let w := one_session true true true in
  fst (_exit 0 true w) = Ret VNone
  /\ trace (snd (_exit 0 true w)) = [SendLine 0 "exit discard"]
  /\ fst (getattr 0 "__conf_mode" (snd (_exit 0 true w))) = Ret (VBool false)
  /\ fst (getattr 0 "__session_modified" (snd (_exit 0 true w)))
     = Ret (VBool true).
Proof. repeat split; vm_compute; reflexivity. Qed.

(** C4, the claim as stated fails: the device answers [already exists]
    to a [set] command and [run_config_mode_command] returns the lines,
    that one among them; no [ConfigError] is raised. *)
Lemma run_config_mode_command_returns_already_exists :
  let dev := device_writing already_exists_output in
  re_search "already exists" already_exists_output 0 = Ret true
  /\ fst (run_config_mode_command eth0_command false nothing_yet)
     = Ret (VList [already_exists_line; "[edit]"])
  /\ ~ (exists e, fst (run_config_mode_command eth0_command false nothing_yet)
                  = Raise e /\ is_ConfigError e = true).
Proof.
  repeat split; try (vm_compute; reflexivity).
  intros (e & He & _). vm_compute in He. discriminate.
Qed.

(** C5, the claim as stated fails: the first token of [showroom floor]
    is not [show], and the command is accepted and sent. *)
Lemma run_op_mode_command_accepts_showroom :
  let dev := device_writing three_lines in
  first_token "showroom floor" <> "show"
  /\ fst (run_op_mode_command "showroom floor" nothing_yet)
     = Ret (VList ["line 1"; "line 2"])
  /\ trace (snd (run_op_mode_command "showroom floor" nothing_yet))
     = router_opening 0
       ++ [SendLine 0 " showroom floor"; SendLine 0 "exit"; ExpectEOF 0;
           Close 0; Terminate 0 true].
Proof. repeat split; try (vm_compute; reflexivity). vm_compute. discriminate. Qed.

(** A session in configuration mode with uncommitted, unsaved changes:
    [_save] raises and the store is the same. *)
Lemma save_refused_when_modified_witness :
  exists msg,
    @_save (execute_returning "ok") 0 (one_session true true false)
    = (Raise (VyOSError msg), one_session true true false).
Proof.
  apply (@save_refused_when_modified (execute_returning "ok")
           (one_session true true false) 0 (session true true false)
           (VBool true) (VBool true)); reflexivity.
Defined.

(** [reboot now] starts with none of the prefixes. *)
Lemma run_config_mode_command_falls_through_witness :
  @run_config_mode_command (device_writing three_lines) "reboot now" false
    nothing_yet
  = (Ret VNone, nothing_yet).
Proof.
  apply (@run_config_mode_command_falls_through (device_writing three_lines)).
  reflexivity.
Defined.

(** The first router built in an empty store. *)
Lemma status_raises_AttributeError_witness :
  let dev := device_writing three_lines in
  status (fresh (dom (objs nothing_yet)))
         (World (<[fresh (dom (objs nothing_yet))
                   := Object "Router" (router_fields 0)]> ∅)
                (router_opening 0))
  = (Raise (AttributeError "logged_in"),
     World (<[fresh (dom (objs nothing_yet))
              := Object "Router" (router_fields 0)]> ∅)
           (router_opening 0)).
Proof.
  intros dev.
  apply (@status_raises_AttributeError dev nothing_yet).
  apply (Router_run nothing_yet). reflexivity.
Defined.

(** [reload system] is answered with the message, even on a device that
    cannot be started. *)
Lemma run_op_mode_command_prefix_gate_witness :
  @run_op_mode_command device_not_starting "reload system" nothing_yet
  = (Ret (VStr op_mode_message), nothing_yet).
Proof.
  apply (@run_op_mode_command_prefix_gate device_not_starting nothing_yet
           "reload system").
Defined.

(** The [set] command of the scenario, through the entry point and
    through [_set]. *)
Lemma already_exists_only_seen_by_set_witness :
  let dev := device_writing already_exists_output in
  let px := execute_returning already_exists_line in
  (exists w',
     run_config_mode_command eth0_command false nothing_yet
     = (Ret (VList [already_exists_line; "[edit]"]), w')
     /\ getattr (fresh (dom (objs nothing_yet))) "session_modified" w'
        = (Ret (VBool false), w'))
  /\ (exists msg,
        _set 0 eth0_path (one_session true false true)
        = (Raise (ConfigError msg),
           World (objs (one_session true false true))
                 [SendLine 0 eth0_command])).
Proof.
  intros dev px.
  apply (@already_exists_only_seen_by_set dev toy_re px
           nothing_yet eth0_command false already_exists_output
           [already_exists_line; "[edit]"]
           (one_session true false true) 0 (session true false true)
           (VBool true) "__execute_command" eth0_path already_exists_line
           [SendLine 0 eth0_command] false);
    vm_compute; reflexivity.
Defined.

End VyosRuns.

(* ===================================================================== *)
(** * Properties of [src/virsh.py]                                        *)
(* ===================================================================== *)

Section VirshFacts.
Import Virsh Notions.
Context {H : Type} {lv : Libvirt H} {re : ReLib}.

Lemma lib_run {A} (m : M H A) (w : world H) r h :
  m (hyp w) = (r, h) -> lib m w = (r, World h (logs w)).
Proof. intros E. unfold lib. rewrite E. reflexivity. Qed.

Lemma connect_run (w : world H) conn h :
  lv_open "qemu:///system" (hyp w) = (Ret (Some conn), h) ->
  _connect_to_libvirt w = (Ret conn, World h (logs w)).
Proof.
  intros E. unfold _connect_to_libvirt.
  rewrite (bind_run _ _ _ _ _ (lib_run _ _ _ _ E)). reflexivity.
Qed.



Lemma log_run (w : world H) l fmt args :
  log l fmt args w = (Ret tt, World (hyp w) (logs w ++ [Log l fmt args])).
Proof. reflexivity. Qed.

Lemma matches_run (w : world H) match_ domain b :
  re_search match_ domain (Z.lor (Z.lor re_I re_S) re_M) = Ret b ->
  matches match_ domain w = (Ret b, w).
Proof. intros E. unfold matches. rewrite E. reflexivity. Qed.

(** The loop of [list] keeps, in order, the names the pattern matches. *)
Lemma matching_loop (match_ : string) (names : list string) :
  compiles_on match_ names = true ->
  forall (acc : list string) (w : world H),
  exists w',
    for_each names
      (fun matching_list domain =>
         do! log DEBUG "Checking if match: {0} to {1}"
                 [AStr match_; AStr domain] in
         let! found := matches match_ domain in
         if found then
           do! log DEBUG "Adding {0} to list" [AStr domain] in
           ret (matching_list ++ [domain])
         else ret matching_list)
      acc w
    = (Ret (acc ++ List.filter (is_match match_) names), w')
    /\ hyp w' = hyp w.
Proof.
  induction names as [|name names IH]; intros Hok acc w.
  - exists w. cbn. rewrite app_nil_r. split; reflexivity.
  - cbn [compiles_on forallb] in Hok. apply andb_true_iff in Hok.
    destruct Hok as [Hname Hrest].
    cbn [for_each List.filter]. unfold is_match at 1.
    rewrite !bind_assoc. rewrite (bind_run _ _ _ _ _ (log_run _ _ _ _)).
    rewrite !bind_assoc.
    destruct (re_search match_ name (Z.lor (Z.lor re_I re_S) re_M))
      as [[|]|e] eqn:Hsearch; [| |discriminate].
    + rewrite (bind_run _ _ _ _ _ (matches_run (World _ _) _ _ _ Hsearch)).
      rewrite !bind_assoc.
      rewrite (bind_run _ _ _ _ _ (log_run _ _ _ _)). rewrite bind_ret.
      destruct (IH Hrest (acc ++ [name]) (World (hyp w)
        ((logs w ++ [Log DEBUG "Checking if match: {0} to {1}"
                         [AStr match_; AStr name]])
         ++ [Log DEBUG "Adding {0} to list" [AStr name]])))
        as (w' & E & Hh).
      exists w'. split; [|exact Hh].
      etransitivity; [exact E|]. rewrite <- app_assoc. reflexivity.
    + rewrite (bind_run _ _ _ _ _ (matches_run (World _ _) _ _ _ Hsearch)).
      rewrite bind_ret.
      apply (IH Hrest acc (World (hyp w)
        (logs w ++ [Log DEBUG "Checking if match: {0} to {1}"
                        [AStr match_; AStr name]]))).
Qed.








(** [list] with a state it knows: the flags are computed and the
    listing is announced before [_list_vms] runs. *)
Lemma list_unfold (w : world H) match_ state code :
  state_code state = Some code ->
  list' match_ state w
  = (let! vm_list := _list_vms code in
     match vm_list with
     | VBool false =>
         do! log DEBUG "Could not get the VM list" [] in
         ret (VBool false)
     | VList vm_list =>
         do! log DEBUG "Looking for matches in: {0}" [ANames vm_list] in
         let! matching_list :=
           for_each vm_list
             (fun matching_list domain =>
                do! log DEBUG "Checking if match: {0} to {1}"
                        [AStr match_; AStr domain] in
                let! found := matches match_ domain in
                if found then
                  do! log DEBUG "Adding {0} to list" [AStr domain] in
                  ret (matching_list ++ [domain])
                else ret matching_list)
             [] in
         ret (VList matching_list)
     | _ => raise TypeError
     end)
      (World (hyp w) (logs w ++ [Log INFO "Listing {0} VMs" [AStr state]])).
Proof.
  intros Hcode. unfold list', state_code in *.
  destruct (String.eqb state "all");
    [|destruct (String.eqb state "running");
      [|destruct (String.eqb state "shutdown"); [|discriminate]]];
    injection Hcode as <-; reflexivity.
Qed.











End VirshFacts.

(* ===================================================================== *)
(** * The stated properties of [src/virsh.py]                             *)
(* ===================================================================== *)

Section VirshClaims.
Import Virsh Notions.
Context {H : Type} {lv : Libvirt H} {re : ReLib}.

(** C2. When [_list_vms] has listed the names [names] and the pattern
    compiles, [list] returns exactly the names that the pattern matches
    (searched with [re.I | re.S | re.M]), in the order of [names]; the
    library is not called again. *)
Theorem list_returns_matching_names (w w1 : world H) match_ state code
    (names : list string) :
  state_code state = Some code ->
  _list_vms code
    (World (hyp w) (logs w ++ [Log INFO "Listing {0} VMs" [AStr state]]))
  = (Ret (VList names), w1) ->
  compiles_on match_ names = true ->
  exists w2,
    list' match_ state w
    = (Ret (VList (List.filter (is_match match_) names)), w2)
    /\ hyp w2 = hyp w1.
Proof.
  intros Hcode Hnames Hok. rewrite (list_unfold w match_ state code Hcode).
  rewrite (bind_run _ _ _ _ _ Hnames).
  rewrite (bind_run _ _ _ _ _ (log_run _ _ _ _)).
  match goal with
  | |- context [bind (for_each _ _ _) _ ?W] =>
      destruct (matching_loop match_ names Hok [] W) as (w2 & Hloop & Hh)
  end.
  rewrite (bind_run _ _ _ _ _ Hloop). exists w2. split; [reflexivity|].
  exact Hh.
Qed.


End VirshClaims.

(** ** The properties at concrete inputs *)

Section VirshRuns.
Import Virsh Notions Sample.

(** C2 at the scenario of the specification: the domains are [web1],
    [web2], [db1], the state is [running] and the pattern [^web]. *)
Lemma list_returns_matching_names_witness :
  exists w2,
    @list' _ (hypervisor true true) toy_re "^web" "running" three_domains
    = (Ret (VList ["web1"; "web2"]), w2)
    /\ hyp w2 = ["web1"; "web2"; "db1"].
Proof.
  apply (@list_returns_matching_names _ (hypervisor true true) toy_re
           three_domains
           (snd (@_list_vms _ (hypervisor true true) 1
                   (World ["web1"; "web2"; "db1"]
                          [Log INFO "Listing {0} VMs" [AStr "running"]])))
           "^web" "running" 1%Z ["web1"; "web2"; "db1"]);
    vm_compute; reflexivity.
Defined.



End VirshRuns.

(* ===================================================================== *)
(** * The stated properties of [src/time_functions.py]                    *)
(* ===================================================================== *)

Section TimeClaims.
Import TimeFunctions.

Lemma int_inject_Z (z : Z) : int (inject_Z z) = z.
Proof. unfold int, inject_Z. cbn [Qnum Qden]. apply Z.quot_1_r. Qed.

(** C7. [get_utc_epoch_time] is [time.mktime], the conversion of a
    local time tuple, applied to the tuple of the UTC reading and
    truncated: the very conversion [get_local_epoch_time] applies to the
    local reading, so that the UTC function returns what the local one
    returns on a host whose local clock shows the UTC reading.  On a
    host [offset] seconds east of UTC its result is therefore the UTC
    conversion of the reading ([timegm]) less [offset]. *)
Theorem get_utc_epoch_time_uses_mktime (host : Host) :
  @get_utc_epoch_time host = int (mktime (timetuple utcnow))
  /\ @get_local_epoch_time host = int (mktime (timetuple now))
  /\ @get_utc_epoch_time host = @get_local_epoch_time (with_now host utcnow)
  /\ (forall local utc offset,
        @get_utc_epoch_time
          {| now := local; utcnow := utc; mktime := mktime_at offset |}
        = (timegm (timetuple utc) - offset)%Z).
Proof.
  repeat split. intros local utc offset.
  unfold get_utc_epoch_time, mktime_at. cbn [utcnow mktime].
  apply int_inject_Z.
Qed.

(** At 2017-07-14 02:40:00 UTC on a host one hour east of UTC, the
    local function returns the seconds since the epoch and the UTC
    function an hour less. *)
Example epoch_times_one_hour_east :
  @get_local_epoch_time Sample.host_east = 1500000000%Z
  /\ @get_utc_epoch_time Sample.host_east = (1500000000 - 3600)%Z
  /\ timegm (timetuple (@utcnow Sample.host_east)) = 1500000000%Z.
Proof. repeat split; vm_compute; reflexivity. Qed.

End TimeClaims.

(* ===================================================================== *)
(** * Further properties of [src/vyos.py]                                 *)
(* ===================================================================== *)

Section Ensures.
Import Notions.
Context {S : Type}.

Lemma ensures_ret {A} (a : A) (P : A -> Prop) : P a -> ensures (@ret S A a) P.
Proof. intros Ha s. exact Ha. Qed.

Lemma ensures_raise {A} (e : exn) (P : A -> Prop) : ensures (@raise S A e) P.
Proof. intros s. exact I. Qed.

Lemma ensures_bind {A B} (m : M S A) (k : A -> M S B) (P : A -> Prop)
    (Q : B -> Prop) :
  ensures m P -> (forall a, P a -> ensures (k a) Q) -> ensures (bind m k) Q.
Proof.
  intros Hm Hk s. unfold bind. specialize (Hm s).
  destruct (m s) as [[a|e] s1]; cbn [fst] in *; [|exact I].
  apply (Hk a Hm s1).
Qed.

Lemma ensures_any {A} (m : M S A) : ensures m (fun _ => True).
Proof. intros s. destruct (fst (m s)); exact I. Qed.

(** A loop whose body keeps an invariant keeps it. *)
Lemma ensures_for_each {A B} (xs : list B) (body : A -> B -> M S A)
    (P : A -> Prop) :
  (forall a x, P a -> ensures (body a x) P) ->
  forall acc, P acc -> ensures (for_each xs body acc) P.
Proof.
  intros Hbody. induction xs as [|x xs IH]; intros acc Hacc; cbn [for_each].
  - apply ensures_ret. exact Hacc.
  - eapply ensures_bind; [apply Hbody; exact Hacc | exact IH].
Qed.

Lemma ensures_del_first {A} (l : list A) :
  ensures (@del_first S A l) (fun l' => incl l' l).
Proof.
  destruct l as [|x l]; intros s; [exact I|]. cbn. apply incl_tl, incl_refl.
Qed.

Lemma ensures_del_last {A} (l : list A) :
  ensures (@del_last S A l) (fun l' => incl l' l).
Proof.
  destruct l as [|x l]; intros s; [exact I|]. cbn [del_last ret fst].
  intros y Hy.
  rewrite (app_removelast_last (l := x :: l) x) by discriminate.
  apply in_or_app. left. exact Hy.
Qed.

Lemma ensures_weaken {A} (m : M S A) (P Q : A -> Prop) :
  ensures m P -> (forall a, P a -> Q a) -> ensures m Q.
Proof.
  intros Hm HPQ s. specialize (Hm s).
  destruct (fst (m s)); [apply HPQ; exact Hm | exact I].
Qed.

End Ensures.

Lemma rstrip_last_char (chars s : string) (c : ascii) :
  Notions.last_char (rstrip chars s) = Some c -> char_in chars c = false.
Proof.
  unfold Notions.last_char, rstrip.
  rewrite list_ascii_of_string_of_list_ascii.
  generalize (rev (list_ascii_of_string s)). intros l.
  induction l as [|x l IH]; cbn [drop_while].
  - discriminate.
  - destruct (char_in chars x) eqn:Hx; [exact IH|].
    cbn [rev]. rewrite last_snoc. intros [= <-]. exact Hx.
Qed.

Section VyosExtras.
Import Vyos Notions.
Context {dev : Device} {re : ReLib} {px : PrivateExecute}.

(** X2. In either mode, no line that [execute_command] returns ends in
    one of the characters [?], [[] or [m]: [rstrip] takes them off every
    line, whether they came from an escape sequence or from the text. *)
Theorem execute_command_lines_stripped (w : world) (self : nat) command cfg
    (output : list string) :
  fst (execute_command self command cfg w) = Ret output ->
  forall line c,
    In line output -> last_char line = Some c -> char_in "?[m" c = false.
Proof.
  intros Hrun.
  assert (Hens : ensures (execute_command self command cfg)
                   (fun out => forall line, In line out ->
                      exists raw, line = rstrip "?[m" raw)).
  { unfold execute_command.
    eapply ensures_bind; [apply ensures_any|]. intros counts _.
    eapply ensures_bind; [apply ensures_any|]. intros _ _.
    eapply ensures_bind; [apply ensures_any|]. intros session _.
    eapply ensures_bind; [apply ensures_any|]. intros before _.
    set (lines := map (rstrip "?[m") (splitlines before)).
    assert (Hfinal : forall out, incl out lines ->
              forall line, In line out -> exists raw, line = rstrip "?[m" raw).
    { intros out Hincl line Hline. apply Hincl in Hline.
      apply in_map_iff in Hline as (raw & <- & _). exists raw. reflexivity. }
    destruct (3 <=? length lines)%nat.
    - eapply ensures_bind with (P := fun out => incl out lines).
      + apply ensures_for_each; [|apply incl_refl].
        intros out _ Hout. eapply ensures_weaken; [apply ensures_del_first|].
        intros out' Hout'. cbn beta in *. exact (incl_tran Hout' Hout).
      + intros out1 Hout1.
        eapply ensures_bind with (P := fun out => incl out lines).
        * apply ensures_for_each; [|exact Hout1].
          intros out _ Hout. eapply ensures_weaken; [apply ensures_del_last|].
          intros out' Hout'. cbn beta in *. exact (incl_tran Hout' Hout).
        * intros out2 Hout2. apply ensures_ret. apply Hfinal. exact Hout2.
    - apply ensures_ret. apply Hfinal. apply incl_refl. }
  specialize (Hens w). rewrite Hrun in Hens.
  intros line c Hline Hlast. destruct (Hens line Hline) as (raw & ->).
  apply (rstrip_last_char _ _ _ Hlast).
Qed.

(** X3. A configuration command whose output has three or four lines:
    the three deletions at the top leave fewer than two lines for the
    deletions at the bottom, [del output[-1]] raises [IndexError], and
    [run_config_mode_command] ends with it, the session left open (the
    trace stops at [expect]). *)
Theorem run_config_mode_command_short_output (w : world) command save_changes
    before :
  startswith_any command config_prefixes = true ->
  spawn_error (trace w) = None ->
  read_to_eof (trace w
               ++ router_opening (length (List.filter is_spawn (trace w)))
               ++ config_bracket (length (List.filter is_spawn (trace w)))
                                 command) = Ret before ->
  3 <= length (splitlines before) <= 4 ->
  run_config_mode_command command save_changes w
  = (Raise IndexError,
     World (<[fresh (dom (objs w))
              := Object "Router"
                   (router_fields (length (List.filter is_spawn (trace w))))]>
              (objs w))
           (trace w
            ++ router_opening (length (List.filter is_spawn (trace w)))
            ++ config_bracket (length (List.filter is_spawn (trace w)))
                              command)).
Proof.
  intros Hprefix Hspawn Hread Hlen.
  rewrite (run_config_mode_command_accepted w command save_changes before
             Hprefix Hspawn Hread).
  unfold config_mode_lines. rewrite length_map.
  destruct (length (splitlines before) <? 3)%nat eqn:H3;
    [apply Nat.ltb_lt in H3; lia|].
  destruct (length (splitlines before) <? 5)%nat eqn:H5;
    [reflexivity | apply Nat.ltb_ge in H5; lia].
Qed.

(** X4. An operational command that the device answers: the list of
    lines is returned and the session is closed and then terminated by
    force, these being the last two things done. *)
Theorem run_op_mode_command_closes_session (w : world) command before :
  startswith command "show" = true ->
  spawn_error (trace w) = None ->
  read_to_eof (trace w
               ++ router_opening (length (List.filter is_spawn (trace w)))
               ++ [SendLine (length (List.filter is_spawn (trace w)))
                            (" " ++ command);
                   SendLine (length (List.filter is_spawn (trace w))) "exit";
                   ExpectEOF (length (List.filter is_spawn (trace w)))])
  = Ret before ->
  exists lines rest,
    fst (run_op_mode_command command w) = Ret (VList lines)
    /\ trace (snd (run_op_mode_command command w))
       = rest ++ [Close (length (List.filter is_spawn (trace w)));
                  Terminate (length (List.filter is_spawn (trace w))) true].
Proof.
  intros Hshow Hspawn Hread.
  rewrite (run_op_mode_command_accepted w command Hshow Hspawn), Hread.
  eexists. eexists. split; reflexivity.
Qed.

(** X5. An operational command on a device whose [expect] raises (a
    time-out, say): the exception goes through [run_op_mode_command]
    and [close_session] is not reached; the trace ends at [expect], with
    neither [close] nor [terminate]. *)
Theorem run_op_mode_command_leaves_session_open (w : world) command e :
  startswith command "show" = true ->
  spawn_error (trace w) = None ->
  read_to_eof (trace w
               ++ router_opening (length (List.filter is_spawn (trace w)))
               ++ [SendLine (length (List.filter is_spawn (trace w)))
                            (" " ++ command);
                   SendLine (length (List.filter is_spawn (trace w))) "exit";
                   ExpectEOF (length (List.filter is_spawn (trace w)))])
  = Raise e ->
  fst (run_op_mode_command command w) = Raise e
  /\ trace (snd (run_op_mode_command command w))
     = trace w
       ++ router_opening (length (List.filter is_spawn (trace w)))
       ++ [SendLine (length (List.filter is_spawn (trace w))) (" " ++ command);
           SendLine (length (List.filter is_spawn (trace w))) "exit";
           ExpectEOF (length (List.filter is_spawn (trace w)))].
Proof.
  intros Hshow Hspawn Hread.
  rewrite (run_op_mode_command_accepted w command Hshow Hspawn), Hread.
  split; reflexivity.
Qed.

(** X6. When the child process cannot be started, both entry points end
    with the exception of [pexpect.spawn], for every command they
    accept, and the trace is the one they found: nothing was sent. *)
Theorem entry_points_when_spawn_fails (w : world) e :
  spawn_error (trace w) = Some e ->
  (forall command,
     startswith command "show" = true ->
     fst (run_op_mode_command command w) = Raise e
     /\ trace (snd (run_op_mode_command command w)) = trace w)
  /\ (forall command save_changes,
        startswith_any command config_prefixes = true ->
        fst (run_config_mode_command command save_changes w) = Raise e
        /\ trace (snd (run_config_mode_command command save_changes w))
           = trace w).
Proof.
  intros Hspawn. split.
  - intros command Hshow. unfold run_op_mode_command. rewrite Hshow.
    rewrite (bind_run_raise _ _ _ _ _ (Router_fails w e Hspawn)).
    split; reflexivity.
  - intros command save_changes Hprefix. unfold run_config_mode_command.
    rewrite Hprefix.
    rewrite (bind_run_raise _ _ _ _ _ (Router_fails w e Hspawn)).
    split; reflexivity.
Qed.

(** X7. On a router that [Router()] has just returned, each of
    [_commit], [_save], [_exit], [_set] and [_delete] raises
    [AttributeError] for [__conf_mode] and changes nothing: outside a
    class body the name is not mangled, and [__init__] assigns
    [conf_mode]. *)
Theorem unwired_functions_on_a_router (w w1 : world) (self : nat) :
  Router w = (Ret self, w1) ->
  _commit self w1 = (Raise (AttributeError "__conf_mode"), w1)
  /\ _save self w1 = (Raise (AttributeError "__conf_mode"), w1)
  /\ (forall force,
        _exit self force w1 = (Raise (AttributeError "__conf_mode"), w1))
  /\ (forall path,
        _set self path w1 = (Raise (AttributeError "__conf_mode"), w1))
  /\ (forall path,
        _delete self path w1 = (Raise (AttributeError "__conf_mode"), w1)).
Proof.
  intros Hnew.
  destruct (spawn_error (trace w)) as [e|] eqn:Hspawn.
  - rewrite (Router_fails w e Hspawn) in Hnew. discriminate.
  - rewrite (Router_run w Hspawn) in Hnew. injection Hnew as <- <-.
    assert (Hmissing : forall A (k : val -> M world A),
              bind (getattr (fresh (dom (objs w))) "__conf_mode") k
                (World (<[fresh (dom (objs w))
                          := Object "Router"
                               (router_fields
                                  (length (List.filter is_spawn (trace w))))]>
                          (objs w))
                       (trace w ++ router_opening
                                     (length (List.filter is_spawn (trace w)))))
              = (Raise (AttributeError "__conf_mode"),
                 World (<[fresh (dom (objs w))
                          := Object "Router"
                               (router_fields
                                  (length (List.filter is_spawn (trace w))))]>
                          (objs w))
                       (trace w ++ router_opening
                                     (length (List.filter is_spawn (trace w)))))).
    { intros A k. apply bind_run_raise.
      eapply getattr_missing; [apply lookup_insert_eq | reflexivity..]. }
    repeat split; intros; apply Hmissing.
Qed.

(** X8. [_commit] in configuration mode with nothing modified raises
    [ConfigError] before it calls the device: the store is unchanged,
    so the outcome does not depend on what the device would answer. *)
Theorem commit_without_changes (w : world) (self : nat) (o : object) c m :
  objs w !! self = Some o ->
  fields o !! "__conf_mode" = Some c -> truthy c = true ->
  fields o !! "__session_modified" = Some m -> truthy m = false ->
  _commit self w
  = (Raise (ConfigError "No configuration changes to commit"), w).
Proof.
  intros Ho Hc Tc Hm Tm. unfold _commit.
  rewrite (bind_run _ _ _ _ _ (getattr_field _ _ _ _ _ Ho Hc)), Tc.
  cbn [negb].
  rewrite (bind_run _ _ _ _ _ (getattr_field _ _ _ _ _ Ho Hm)), Tm.
  reflexivity.
Qed.

(** X9. [_commit] with changes to commit, by the output of the commit
    command: [Commit failed] gives [CommitError] with the output, and
    is looked for first; otherwise [another commit in progress] gives
    [ConfigLocked]; otherwise both flags are set to [False].  In the two
    failing cases no attribute is assigned. *)
Theorem commit_outcomes (w : world) (self : nat) (o : object) c m n out t
    (failed locked : bool) :
  objs w !! self = Some o ->
  fields o !! "__conf_mode" = Some c -> truthy c = true ->
  fields o !! "__session_modified" = Some m -> truthy m = true ->
  fields o !! "__execute_command" = Some (VCallable n) ->
  private_execute "commit" (trace w) = (Ret out, t) ->
  re_search "Commit\s+failed" out 0 = Ret failed ->
  re_search "another\s+commit\s+in\s+progress" out 0 = Ret locked ->
  _commit self w
  = if failed then (Raise (CommitError out), World (objs w) t)
    else if locked then
      (Raise (ConfigLocked
                "Configuration is locked due to another commit in progress"),
       World (objs w) t)
    else
      (Ret VNone,
       World (<[self := Object (class_of o)
                          (<["__session_saved" := VBool false]>
                             (<["__session_modified" := VBool false]>
                                (fields o)))]> (objs w)) t).
Proof.
  intros Ho Hc Tc Hm Tm Hx Hcall Hfailed Hlocked. unfold _commit.
  rewrite (bind_run _ _ _ _ _ (getattr_field _ _ _ _ _ Ho Hc)), Tc.
  cbn [negb].
  rewrite (bind_run _ _ _ _ _ (getattr_field _ _ _ _ _ Ho Hm)), Tm.
  cbn [negb].
  rewrite (bind_run _ _ _ _ _
             (call_execute_command_run _ _ _ _ _ _ _ Ho Hx Hcall)).
  rewrite (bind_run _ _ _ _ _ (search_run (World _ _) _ _ _ Hfailed)).
  destruct failed; [reflexivity|].
  rewrite (bind_run _ _ _ _ _ (search_run (World _ _) _ _ _ Hlocked)).
  destruct locked; [reflexivity|].
  rewrite (bind_run _ _ _ _ _ (setattr_run (World _ _) _ _ _ _ Ho)).
  erewrite bind_run by (apply setattr_run; apply lookup_insert_eq).
  cbn [objs trace class_of fields]. rewrite insert_insert_eq. reflexivity.
Qed.

(** [_save] in configuration mode with nothing uncommitted, when the
    save command returns: [__session_saved] becomes [True] and no other
    attribute is assigned. *)
Lemma save_succeeds (w : world) (self : nat) (o : object) c m n out t :
  objs w !! self = Some o ->
  fields o !! "__conf_mode" = Some c -> truthy c = true ->
  fields o !! "__session_modified" = Some m -> truthy m = false ->
  fields o !! "__execute_command" = Some (VCallable n) ->
  private_execute "save" (trace w) = (Ret out, t) ->
  _save self w
  = (Ret VNone,
     World (<[self := Object (class_of o)
                        (<["__session_saved" := VBool true]> (fields o))]>
              (objs w)) t).
Proof.
  intros Ho Hc Tc Hm Tm Hx Hcall. unfold _save.
  rewrite (bind_run _ _ _ _ _ (getattr_field _ _ _ _ _ Ho Hc)), Tc.
  cbn [negb].
  rewrite (bind_run _ _ _ _ _ (getattr_field _ _ _ _ _ Ho Hm)), Tm.
  rewrite (bind_run _ _ _ _ _
             (call_execute_command_run _ _ _ _ _ _ _ Ho Hx Hcall)).
  rewrite (bind_run _ _ _ _ _ (setattr_run (World _ _) _ _ _ _ Ho)).
  reflexivity.
Qed.

(** X11. Outside configuration mode none of the five functions touches
    the device or the attributes: [_commit] and [_save] raise
    [VyOSError], [_set] and [_delete] raise [ConfigError], and [_exit]
    returns [None], with or without [force]. *)
Theorem outside_configuration_mode (w : world) (self : nat) (o : object) c :
  objs w !! self = Some o ->
  fields o !! "__conf_mode" = Some c -> truthy c = false ->
  (exists msg, _commit self w = (Raise (VyOSError msg), w))
  /\ (exists msg, _save self w = (Raise (VyOSError msg), w))
  /\ (forall path, exists msg,
        _set self path w = (Raise (ConfigError msg), w))
  /\ (forall path, exists msg,
        _delete self path w = (Raise (ConfigError msg), w))
  /\ (forall force, _exit self force w = (Ret VNone, w)).
Proof.
  intros Ho Hc Tc.
  unfold _commit, _save, _set, _delete, _exit.
  repeat split; intros;
    rewrite (bind_run _ _ _ _ _ (getattr_field _ _ _ _ _ Ho Hc)), Tc;
    cbn [negb]; try eexists; reflexivity.
Qed.

(** X12. [_set] in configuration mode, by the output of the set
    command: [Set failed] gives [ConfigError] with the output, and is
    looked for first; otherwise [already exists] gives [ConfigError];
    otherwise [__session_modified] becomes [True]. *)
Theorem set_outcomes (w : world) (self : nat) (o : object) c n path out t
    (failed present : bool) :
  objs w !! self = Some o ->
  fields o !! "__conf_mode" = Some c -> truthy c = true ->
  fields o !! "__execute_command" = Some (VCallable n) ->
  private_execute ("set" ++ " " ++ path) (trace w) = (Ret out, t) ->
  re_search "Set\s+failed" out 0 = Ret failed ->
  re_search "already exists" out 0 = Ret present ->
  _set self path w
  = if failed then (Raise (ConfigError out), World (objs w) t)
    else if present then
      (Raise (ConfigError "Configuration path already exists"),
       World (objs w) t)
    else
      (Ret VNone,
       World (<[self := Object (class_of o)
                          (<["__session_modified" := VBool true]> (fields o))]>
                (objs w)) t).
Proof.
  intros Ho Hc Tc Hx Hcall Hfailed Hpresent. unfold _set.
  rewrite (bind_run _ _ _ _ _ (getattr_field _ _ _ _ _ Ho Hc)), Tc.
  cbn [negb].
  rewrite (bind_run _ _ _ _ _
             (call_execute_command_run _ _ _ _ _ _ _ Ho Hx Hcall)).
  rewrite (bind_run _ _ _ _ _ (search_run (World _ _) _ _ _ Hfailed)).
  destruct failed; [reflexivity|].
  rewrite (bind_run _ _ _ _ _ (search_run (World _ _) _ _ _ Hpresent)).
  destruct present; [reflexivity|].
  rewrite (bind_run _ _ _ _ _ (setattr_run (World _ _) _ _ _ _ Ho)).
  reflexivity.
Qed.

(** X13. [_delete] in configuration mode, by the output of the delete
    command: [Nothing to delete] gives [ConfigError] with the output
    and leaves the attributes alone; otherwise [__session_modified]
    becomes [True]. *)
Theorem delete_outcomes (w : world) (self : nat) (o : object) c n path out t
    (nothing : bool) :
  objs w !! self = Some o ->
  fields o !! "__conf_mode" = Some c -> truthy c = true ->
  fields o !! "__execute_command" = Some (VCallable n) ->
  private_execute ("delete" ++ " " ++ path) (trace w) = (Ret out, t) ->
  re_search "Nothing\s+to\s+delete" out 0 = Ret nothing ->
  _delete self path w
  = if nothing then (Raise (ConfigError out), World (objs w) t)
    else
      (Ret VNone,
       World (<[self := Object (class_of o)
                          (<["__session_modified" := VBool true]> (fields o))]>
                (objs w)) t).
Proof.
  intros Ho Hc Tc Hx Hcall Hnothing. unfold _delete.
  rewrite (bind_run _ _ _ _ _ (getattr_field _ _ _ _ _ Ho Hc)), Tc.
  cbn [negb].
  rewrite (bind_run _ _ _ _ _
             (call_execute_command_run _ _ _ _ _ _ _ Ho Hx Hcall)).
  rewrite (bind_run _ _ _ _ _ (search_run (World _ _) _ _ _ Hnothing)).
  destruct nothing; [reflexivity|].
  rewrite (bind_run _ _ _ _ _ (setattr_run (World _ _) _ _ _ _ Ho)).
  reflexivity.
Qed.

(** [_exit] without [force] from a clean session (nothing
    uncommitted, everything saved): [exit] is sent and the session
    leaves configuration mode; the two flags are not assigned. *)
Lemma exit_clean_succeeds (w : world) (self : nat) (o : object) c m sv n out t :
  objs w !! self = Some o ->
  fields o !! "__conf_mode" = Some c -> truthy c = true ->
  fields o !! "__session_modified" = Some m -> truthy m = false ->
  fields o !! "__session_saved" = Some sv -> truthy sv = true ->
  fields o !! "__execute_command" = Some (VCallable n) ->
  private_execute "exit" (trace w) = (Ret out, t) ->
  _exit self false w
  = (Ret VNone,
     World (<[self := Object (class_of o)
                        (<["__conf_mode" := VBool false]> (fields o))]>
              (objs w)) t).
Proof.
  intros Ho Hc Tc Hm Tm Hs Ts Hx Hcall. unfold _exit.
  rewrite (bind_run _ _ _ _ _ (getattr_field _ _ _ _ _ Ho Hc)), Tc.
  cbn [negb].
  rewrite (bind_run _ _ _ _ _ (getattr_field _ _ _ _ _ Ho Hm)), Tm.
  rewrite (bind_run _ _ _ _ _ (getattr_field _ _ _ _ _ Ho Hs)), Ts.
  cbn [negb andb].
  rewrite (bind_run _ _ _ _ _
             (call_execute_command_run _ _ _ _ _ _ _ Ho Hx Hcall)).
  rewrite (bind_run _ _ _ _ _ (setattr_run (World _ _) _ _ _ _ Ho)).
  reflexivity.
Qed.

(** [_set] when the set command returns and its output has none of
    the phrases. *)
Lemma set_succeeds (w : world) (self : nat) (o : object) c n path out t :
  objs w !! self = Some o ->
  fields o !! "__conf_mode" = Some c -> truthy c = true ->
  fields o !! "__execute_command" = Some (VCallable n) ->
  private_execute ("set" ++ " " ++ path) (trace w) = (Ret out, t) ->
  re_search "Set\s+failed" out 0 = Ret false ->
  re_search "already exists" out 0 = Ret false ->
  _set self path w
  = (Ret VNone,
     World (<[self := Object (class_of o)
                        (<["__session_modified" := VBool true]> (fields o))]>
              (objs w)) t).
Proof.
  intros Ho Hc Tc Hx Hcall Hfailed Hpresent. unfold _set.
  rewrite (bind_run _ _ _ _ _ (getattr_field _ _ _ _ _ Ho Hc)), Tc.
  cbn [negb].
  rewrite (bind_run _ _ _ _ _
             (call_execute_command_run _ _ _ _ _ _ _ Ho Hx Hcall)).
  rewrite (bind_run _ _ _ _ _ (search_run (World _ _) _ _ _ Hfailed)).
  rewrite (bind_run _ _ _ _ _ (search_run (World _ _) _ _ _ Hpresent)).
  rewrite (bind_run _ _ _ _ _ (setattr_run (World _ _) _ _ _ _ Ho)).
  reflexivity.
Qed.

(** [_commit] when the commit command returns and its output has none
    of the phrases. *)
Lemma commit_succeeds (w : world) (self : nat) (o : object) c m n out t :
  objs w !! self = Some o ->
  fields o !! "__conf_mode" = Some c -> truthy c = true ->
  fields o !! "__session_modified" = Some m -> truthy m = true ->
  fields o !! "__execute_command" = Some (VCallable n) ->
  private_execute "commit" (trace w) = (Ret out, t) ->
  re_search "Commit\s+failed" out 0 = Ret false ->
  re_search "another\s+commit\s+in\s+progress" out 0 = Ret false ->
  _commit self w
  = (Ret VNone,
     World (<[self := Object (class_of o)
                        (<["__session_saved" := VBool false]>
                           (<["__session_modified" := VBool false]>
                              (fields o)))]> (objs w)) t).
Proof.
  intros Ho Hc Tc Hm Tm Hx Hcall Hfailed Hlocked. unfold _commit.
  rewrite (bind_run _ _ _ _ _ (getattr_field _ _ _ _ _ Ho Hc)), Tc.
  cbn [negb].
  rewrite (bind_run _ _ _ _ _ (getattr_field _ _ _ _ _ Ho Hm)), Tm.
  cbn [negb].
  rewrite (bind_run _ _ _ _ _
             (call_execute_command_run _ _ _ _ _ _ _ Ho Hx Hcall)).
  rewrite (bind_run _ _ _ _ _ (search_run (World _ _) _ _ _ Hfailed)).
  rewrite (bind_run _ _ _ _ _ (search_run (World _ _) _ _ _ Hlocked)).
  rewrite (bind_run _ _ _ _ _ (setattr_run (World _ _) _ _ _ _ Ho)).
  erewrite bind_run by (apply setattr_run; apply lookup_insert_eq).
  cbn [objs trace class_of fields]. rewrite insert_insert_eq. reflexivity.
Qed.

(** What an obliging device answers to one command. *)
Lemma obliging_call (Hob : obliging) command t :
  exists out t',
    private_execute command t = (Ret out, t')
    /\ re_search "Set\s+failed" out 0 = Ret false
    /\ re_search "already exists" out 0 = Ret false
    /\ re_search "Commit\s+failed" out 0 = Ret false
    /\ re_search "another\s+commit\s+in\s+progress" out 0 = Ret false.
Proof.
  destruct (Hob command t) as (out & t' & Hcall & Hquiet).
  exists out, t'. split; [exact Hcall|].
  cbn [forallb failure_phrases] in Hquiet.
  repeat (apply andb_true_iff in Hquiet; destruct Hquiet as [? Hquiet]).
  repeat match goal with
         | H : match re_search ?p ?o 0 with _ => _ end = true |- _ =>
             destruct (re_search p o 0) as [[|]|]; try discriminate; clear H
         end.
  repeat split; reflexivity.
Qed.

(** Reading an attribute of an instance whose dictionary is a chain of
    assignments. *)
Local Ltac lookup :=
  cbn [objs fields class_of];
  rewrite ?lookup_insert_eq;
  repeat (rewrite lookup_insert_ne by discriminate);
  rewrite ?lookup_insert_eq;
  first [eassumption | reflexivity].

Local Ltac read_attribute :=
  erewrite bind_run by (eapply getattr_field; [lookup | lookup]).

(** X10. After a [_set] that went through, the session is modified:
    [_save] and an unforced [_exit] are both refused with [VyOSError]
    until the changes are committed, and the refusal changes nothing
    (the store is the one [_set] left). *)
Theorem set_then_save_or_exit_refused (w : world) (self : nat) (o : object)
    c sv n path out t :
  objs w !! self = Some o ->
  fields o !! "__conf_mode" = Some c -> truthy c = true ->
  fields o !! "__session_saved" = Some sv ->
  fields o !! "__execute_command" = Some (VCallable n) ->
  private_execute ("set" ++ " " ++ path) (trace w) = (Ret out, t) ->
  re_search "Set\s+failed" out 0 = Ret false ->
  re_search "already exists" out 0 = Ret false ->
  (exists msg,
     (do! _set self path in _save self) w
     = (Raise (VyOSError msg), snd (_set self path w)))
  /\ (exists msg,
        (do! _set self path in _exit self false) w
        = (Raise (VyOSError msg), snd (_set self path w))).
Proof.
  intros Ho Hc Tc Hs Hx Hcall Hfailed Hpresent.
  pose proof (set_succeeds w self o c n path out t Ho Hc Tc Hx Hcall
                Hfailed Hpresent) as Hset.
  rewrite Hset. cbn [snd]. split.
  - rewrite (bind_run _ _ _ _ _ Hset). unfold _save. eexists.
    read_attribute.
    rewrite Tc. cbn [negb].
    read_attribute.
    reflexivity.
  - rewrite (bind_run _ _ _ _ _ Hset). unfold _exit. eexists.
    read_attribute.
    rewrite Tc. cbn [negb].
    read_attribute.
    reflexivity.
Qed.

(** X14. On an obliging device the sequence [_set], [_commit], [_save],
    [_exit] (unforced) goes through from any session in configuration
    mode, whatever its flags were, and ends outside configuration mode
    with nothing uncommitted and everything saved. *)
Theorem set_commit_save_exit (Hob : obliging) (w : world) (self : nat)
    (o : object) c m sv n path :
  objs w !! self = Some o ->
  fields o !! "__conf_mode" = Some c -> truthy c = true ->
  fields o !! "__session_modified" = Some m ->
  fields o !! "__session_saved" = Some sv ->
  fields o !! "__execute_command" = Some (VCallable n) ->
  exists w',
    (do! _set self path in
     do! _commit self in
     do! _save self in
     _exit self false) w = (Ret VNone, w')
    /\ flags_of w' self = Some (false, false, true).
Proof.
  intros Ho Hc Tc Hm Hs Hx.
  destruct (obliging_call Hob ("set" ++ " " ++ path) (trace w))
    as (out1 & t1 & Hcall1 & Hf1 & Hp1 & _).
  destruct (obliging_call Hob "commit" t1)
    as (out2 & t2 & Hcall2 & _ & _ & Hf2 & Hl2).
  destruct (obliging_call Hob "save" t2) as (out3 & t3 & Hcall3 & _).
  destruct (obliging_call Hob "exit" t3) as (out4 & t4 & Hcall4 & _).
  rewrite (bind_run _ _ _ _ _
             (set_succeeds w self o c n path out1 t1 Ho Hc Tc Hx Hcall1
                Hf1 Hp1)).
  erewrite bind_run
    by (eapply (commit_succeeds (World _ _)) with (c := c) (out := out2);
        [lookup | lookup | exact Tc | lookup | reflexivity | lookup
        | exact Hcall2 | exact Hf2 | exact Hl2]).
  cbn [class_of fields]. rewrite insert_insert_eq.
  erewrite bind_run
    by (eapply (save_succeeds (World _ _)) with (c := c) (out := out3);
        [lookup | lookup | exact Tc | lookup | reflexivity | lookup
        | exact Hcall3]).
  cbn [class_of fields]. rewrite insert_insert_eq.
  eexists. split.
  - eapply (exit_clean_succeeds (World _ _)) with (c := c) (out := out4);
      [lookup | lookup | exact Tc | lookup | reflexivity | lookup
      | reflexivity | lookup | exact Hcall4].
  - unfold flags_of. cbn [objs class_of fields].
    rewrite insert_insert_eq, lookup_insert_eq. cbn [fields].
    rewrite lookup_insert_eq.
    repeat (rewrite lookup_insert_ne by discriminate).
    rewrite lookup_insert_eq.
    repeat (rewrite lookup_insert_ne by discriminate).
    rewrite lookup_insert_eq. reflexivity.
Qed.

End VyosExtras.

(** ** The further properties at concrete inputs *)

Section VyosExtraRuns.
Import Vyos Notions Sample.

(** Three lines in operational mode: two are returned. *)
Lemma execute_command_op_mode_length_witness :
  let dev := device_writing three_lines in
  exists output,
    fst (execute_command 0 "show version" false one_router) = Ret output
    /\ length output = 2.
Proof.
  intros dev.
  apply (@execute_command_op_mode_length dev one_router 0
           (Object "Router" (router_fields 0)) 0 "show version" three_lines);
    reflexivity.
Defined.

(** Lines that end in [m], [[m] and [?]. *)
Lemma execute_command_lines_stripped_witness :
  Forall (fun line => forall c, last_char line = Some c ->
                                char_in "?[m" c = false)
         ["uptime 3"; "alarm "].
Proof.
  apply List.Forall_forall. intros line Hline c.
  apply (@execute_command_lines_stripped (device_writing lines_to_strip)
           one_router 0 "show version" false ["uptime 3"; "alarm "]);
    [vm_compute; reflexivity | exact Hline].
Defined.

(** A [set] command answered with four lines. *)
Lemma run_config_mode_command_short_output_witness :
  let dev := device_writing four_lines in
  fst (run_config_mode_command eth0_command false nothing_yet)
  = Raise IndexError.
Proof.
  intros dev.
  rewrite (@run_config_mode_command_short_output dev nothing_yet eth0_command
             false four_lines);
    [reflexivity | reflexivity | reflexivity | reflexivity
    | vm_compute; lia].
Defined.

Lemma run_op_mode_command_closes_session_witness :
  let dev := device_writing three_lines in
  exists lines rest,
    fst (run_op_mode_command "show version" nothing_yet) = Ret (VList lines)
    /\ trace (snd (run_op_mode_command "show version" nothing_yet))
       = rest ++ [Close 0; Terminate 0 true].
Proof.
  intros dev.
  apply (@run_op_mode_command_closes_session dev nothing_yet "show version"
           three_lines); reflexivity.
Defined.

Lemma run_op_mode_command_leaves_session_open_witness :
  let dev := device_timing_out in
  fst (run_op_mode_command "show version" nothing_yet)
  = Raise (PexpectError "TIMEOUT")
  /\ trace (snd (run_op_mode_command "show version" nothing_yet))
     = router_opening 0
       ++ [SendLine 0 " show version"; SendLine 0 "exit"; ExpectEOF 0].
Proof.
  intros dev.
  apply (@run_op_mode_command_leaves_session_open dev nothing_yet
           "show version" (PexpectError "TIMEOUT")); reflexivity.
Defined.

Lemma entry_points_when_spawn_fails_witness :
  let dev := device_not_starting in
  (forall command,
     startswith command "show" = true ->
     fst (run_op_mode_command command nothing_yet)
     = Raise (PexpectError "ExceptionPexpect")
     /\ trace (snd (run_op_mode_command command nothing_yet)) = [])
  /\ (forall command save_changes,
        startswith_any command config_prefixes = true ->
        fst (run_config_mode_command command save_changes nothing_yet)
        = Raise (PexpectError "ExceptionPexpect")
        /\ trace (snd (run_config_mode_command command save_changes
                         nothing_yet)) = []).
Proof.
  intros dev.
  apply (@entry_points_when_spawn_fails dev nothing_yet
           (PexpectError "ExceptionPexpect")).
  reflexivity.
Defined.

Lemma unwired_functions_on_a_router_witness :
  let px := execute_returning "ok" in
  _commit 0 one_router = (Raise (AttributeError "__conf_mode"), one_router)
  /\ _save 0 one_router = (Raise (AttributeError "__conf_mode"), one_router)
  /\ (forall force,
        _exit 0 force one_router
        = (Raise (AttributeError "__conf_mode"), one_router))
  /\ (forall path,
        _set 0 path one_router
        = (Raise (AttributeError "__conf_mode"), one_router))
  /\ (forall path,
        _delete 0 path one_router
        = (Raise (AttributeError "__conf_mode"), one_router)).
Proof.
  intros px.
  apply (@unwired_functions_on_a_router (device_writing three_lines) toy_re px
           nothing_yet one_router 0).
  vm_compute. reflexivity.
Defined.

Lemma commit_without_changes_witness :
  @_commit toy_re (execute_returning "ok") 0 (one_session true false true)
  = (Raise (ConfigError "No configuration changes to commit"),
     one_session true false true).
Proof.
  apply (@commit_without_changes toy_re (execute_returning "ok")
           (one_session true false true) 0 (session true false true)
           (VBool true) (VBool false)); reflexivity.
Defined.

(** The output has both phrases: [CommitError] it is. *)
Lemma commit_outcomes_witness :
  @_commit toy_re (execute_returning commit_failed_output) 0
    (one_session true true true)
  = (Raise (CommitError commit_failed_output),
     World (objs (one_session true true true)) [SendLine 0 "commit"]).
Proof.
  apply (@commit_outcomes toy_re (execute_returning commit_failed_output)
           (one_session true true true) 0 (session true true true)
           (VBool true) (VBool true) "__execute_command" commit_failed_output
           [SendLine 0 "commit"] true true);
    vm_compute; reflexivity.
Defined.

Lemma set_then_save_or_exit_refused_witness :
  let px := execute_returning "ok" in
  let w := one_session true false true in
  (exists msg,
     (do! _set 0 eth0_path in _save 0) w
     = (Raise (VyOSError msg), snd (_set 0 eth0_path w)))
  /\ (exists msg,
        (do! _set 0 eth0_path in _exit 0 false) w
        = (Raise (VyOSError msg), snd (_set 0 eth0_path w))).
Proof.
  intros px w.
  apply (@set_then_save_or_exit_refused toy_re px w 0
           (session true false true) (VBool true) (VBool true)
           "__execute_command" eth0_path "ok" [SendLine 0 eth0_command]);
    vm_compute; reflexivity.
Defined.

Lemma outside_configuration_mode_witness :
  let px := execute_returning "ok" in
  let w := one_session false false true in
  (exists msg, _commit 0 w = (Raise (VyOSError msg), w))
  /\ (exists msg, _save 0 w = (Raise (VyOSError msg), w))
  /\ (forall path, exists msg, _set 0 path w = (Raise (ConfigError msg), w))
  /\ (forall path, exists msg,
        _delete 0 path w = (Raise (ConfigError msg), w))
  /\ (forall force, _exit 0 force w = (Ret VNone, w)).
Proof.
  intros px w.
  apply (@outside_configuration_mode toy_re px w 0
           (session false false true) (VBool false)); reflexivity.
Defined.

Lemma set_outcomes_witness :
  let px := execute_returning "ok" in
  fst (_set 0 eth0_path (one_session true false true)) = Ret VNone
  /\ flags_of (snd (_set 0 eth0_path (one_session true false true))) 0
     = Some (true, true, true).
Proof.
  intros px.
  rewrite (@set_outcomes toy_re px (one_session true false true) 0
             (session true false true) (VBool true) "__execute_command"
             eth0_path "ok" [SendLine 0 eth0_command] false false);
    [split; vm_compute; reflexivity | vm_compute; reflexivity..].
Defined.

Lemma delete_outcomes_witness :
  let px := execute_returning "Nothing to delete" in
  _delete 0 eth0_path (one_session true false true)
  = (Raise (ConfigError "Nothing to delete"),
     World (objs (one_session true false true))
           [SendLine 0 ("delete" ++ " " ++ eth0_path)]).
Proof.
  intros px.
  apply (@delete_outcomes toy_re px (one_session true false true) 0
           (session true false true) (VBool true) "__execute_command"
           eth0_path "Nothing to delete"
           [SendLine 0 ("delete" ++ " " ++ eth0_path)] true);
    vm_compute; reflexivity.
Defined.

Lemma set_commit_save_exit_witness :
  let px := execute_returning "ok" in
  exists w',
    (do! _set 0 eth0_path in
     do! _commit 0 in
     do! _save 0 in
     _exit 0 false) (one_session true false false) = (Ret VNone, w')
    /\ flags_of w' 0 = Some (false, false, true).
Proof.
  intros px.
  apply (@set_commit_save_exit toy_re px) with
    (o := session true false false) (c := VBool true) (m := VBool false)
    (sv := VBool false) (n := "__execute_command");
    try reflexivity.
  intros command t. exists "ok", (t ++ [SendLine 0 command]).
  split; [reflexivity | vm_compute; reflexivity].
Defined.

(** Unsaved changes and no [force]. *)
Lemma exit_refused_witness :
  exists msg,
    @_exit (execute_returning "ok") 0 false (one_session true false false)
    = (Raise (VyOSError msg), one_session true false false).
Proof.
  apply (@exit_refused (execute_returning "ok") (one_session true false false)
           0 (session true false false) (VBool true) (VBool false)
           (VBool false)); try reflexivity.
  right. reflexivity.
Defined.

Lemma status_raises_after_calls_witness :
  let dev := device_writing three_lines in
  let w := perform_all 0 [CallExecute "show version" false; CallClose;
                          CallStatus] one_router in
  status 0 w = (Raise (AttributeError "logged_in"), w).
Proof.
  intros dev w.
  apply (@status_raises_after_calls dev one_router 0 0). reflexivity.
Defined.

End VyosExtraRuns.

(* ===================================================================== *)
(** * Further properties of [src/virsh.py]                                *)
(* ===================================================================== *)

Section VirshExtras.
Import Virsh Notions.
Context {H : Type} {lv : Libvirt H} {re : ReLib}.

(** X17. [list] with a state other than [all], [running] and [shutdown]:
    the state is logged and [exit(1)] raises [SystemExit] before the
    library is called; the hypervisor is as it was. *)
Theorem list_unknown_state (w : world H) match_ state :
  state_code state = None ->
  list' match_ state w
  = (Raise (SystemExit 1),
     World (hyp w) (logs w ++ [Log DEBUG "Invalid State: {0}" [AStr state]])).
Proof.
  intros Hcode. unfold list', state_code in *.
  destruct (String.eqb state "all"); [discriminate|].
  destruct (String.eqb state "running"); [discriminate|].
  destruct (String.eqb state "shutdown"); [discriminate|].
  reflexivity.
Qed.

(** What [_list_vms] does once connected, when the domains are listed
    and the connection closes. *)
Lemma list_vms_listed (w : world H) conn h code domains h1 h2 :
  lv_open "qemu:///system" (hyp w) = (Ret (Some conn), h) ->
  listAllDomains conn code h = (Ret domains, h1) ->
  conn_close conn h1 = (Ret tt, h2) ->
  _list_vms code w
  = (let! vm_list := append_names domains [] in ret (VList vm_list))
      (World h2 (logs w)).
Proof.
  intros Hopen Hlist Hclose. unfold _list_vms.
  rewrite (bind_run _ _ _ _ _ (connect_run w conn h Hopen)).
  unfold try_except at 1, bind at 1 2 3, lib at 1 2. cbn [hyp logs].
  rewrite Hlist. cbn [hyp logs]. rewrite Hclose. reflexivity.
Qed.

(** X18. With no domain on the host, [list] returns the empty list for
    every pattern, a pattern that does not compile included:
    [re.search] is never called. *)
Theorem list_without_domains (w : world H) conn h match_ state code h1 h2 :
  state_code state = Some code ->
  lv_open "qemu:///system" (hyp w) = (Ret (Some conn), h) ->
  listAllDomains conn code h = (Ret [], h1) ->
  conn_close conn h1 = (Ret tt, h2) ->
  exists w', list' match_ state w = (Ret (VList []), w') /\ hyp w' = h2.
Proof.
  intros Hcode Hopen Hlist Hclose.
  rewrite (list_unfold w match_ state code Hcode).
  rewrite (bind_run _ _ _ _ _
             (list_vms_listed (World _ _) conn h code [] h1 h2 Hopen Hlist
                Hclose)).
  eexists. split; reflexivity.
Qed.

(** X19. A pattern that does not compile, with at least one domain listed:
    the exception of [re.search] goes through [list]. *)
Theorem list_pattern_error (w w1 : world H) match_ state code name
    (names : list string) e :
  state_code state = Some code ->
  _list_vms code
    (World (hyp w) (logs w ++ [Log INFO "Listing {0} VMs" [AStr state]]))
  = (Ret (VList (name :: names)), w1) ->
  re_search match_ name (Z.lor (Z.lor re_I re_S) re_M) = Raise e ->
  fst (list' match_ state w) = Raise e.
Proof.
  intros Hcode Hnames Hsearch.
  rewrite (list_unfold w match_ state code Hcode).
  rewrite (bind_run _ _ _ _ _ Hnames).
  rewrite (bind_run _ _ _ _ _ (log_run _ _ _ _)).
  cbn [for_each]. rewrite !bind_assoc.
  rewrite (bind_run _ _ _ _ _ (log_run _ _ _ _)). rewrite !bind_assoc.
  unfold bind at 1, matches at 1. rewrite Hsearch. reflexivity.
Qed.

(** X20. [domain.name()] is called outside the [try] block of [_list_vms]:
    when it raises for the first domain listed, the exception goes
    through [list] instead of becoming [False]. *)
Theorem list_name_error (w : world H) conn h match_ state code d domains
    h1 h2 h3 e :
  state_code state = Some code ->
  lv_open "qemu:///system" (hyp w) = (Ret (Some conn), h) ->
  listAllDomains conn code h = (Ret (d :: domains), h1) ->
  conn_close conn h1 = (Ret tt, h2) ->
  dom_name d h2 = (Raise e, h3) ->
  fst (list' match_ state w) = Raise e.
Proof.
  intros Hcode Hopen Hlist Hclose Hname.
  rewrite (list_unfold w match_ state code Hcode).
  assert (Hvms : _list_vms code
            (World (hyp w)
                   (logs w ++ [Log INFO "Listing {0} VMs" [AStr state]]))
          = (Raise e,
             World h3 (logs w ++ [Log INFO "Listing {0} VMs" [AStr state]]))).
  { rewrite (list_vms_listed (World _ _) conn h code (d :: domains) h1 h2
               Hopen Hlist Hclose).
    unfold append_names. cbn [for_each]. rewrite !bind_assoc.
    apply bind_run_raise. apply (lib_run _ (World _ _)). exact Hname. }
  rewrite (bind_run_raise _ _ _ _ _ Hvms). reflexivity.
Qed.

(** X21. [reboot] returns [True] exactly when the lookup, the reboot and the
    closing of the connection all return. *)
Theorem reboot_true_iff (w : world H) conn h domain :
  lv_open "qemu:///system" (hyp w) = (Ret (Some conn), h) ->
  fst (reboot domain w) = Ret (VBool true)
  <-> exists d h1 h2 h3,
        lookupByName conn domain h = (Ret d, h1)
        /\ dom_reboot d 0 h1 = (Ret tt, h2)
        /\ conn_close conn h2 = (Ret tt, h3).
Proof.
  intros Hopen. unfold reboot.
  rewrite (bind_run _ _ _ _ _ (connect_run w conn h Hopen)).
  unfold try_except, bind, lib, log, modify, ret, raise. cbn [hyp logs fst snd].
  destruct (lookupByName conn domain h) as [[d|e] h1] eqn:Hlookup;
    cbn [fst snd hyp logs].
  - destruct (dom_reboot d 0 h1) as [[[]|e] h2] eqn:Hreboot;
      cbn [fst snd hyp logs].
    + destruct (conn_close conn h2) as [[[]|e] h3] eqn:Hclose;
        cbn [fst snd hyp logs].
      * split; [|reflexivity]. intros _. exists d, h1, h2, h3.
        repeat split; assumption.
      * split; [discriminate|].
        intros (d' & h1' & h2' & h3' & [= <- <-] & Hr & Hc).
        rewrite Hreboot in Hr. injection Hr as <-.
        rewrite Hclose in Hc. discriminate.
    + split; [discriminate|].
      intros (d' & h1' & h2' & h3' & [= <- <-] & Hr & Hc).
      rewrite Hreboot in Hr. discriminate.
  - split; [discriminate|]. intros (d' & h1' & h2' & h3' & Hl & _).
    discriminate.
Qed.

(** X22. When the lookup fails, [reboot] returns [False] with the hypervisor
    in the state the lookup left: [conn.close()], which is inside the
    [try] block, is not reached and the connection stays open. *)
Theorem reboot_lookup_error (w : world H) conn h domain e h1 :
  lv_open "qemu:///system" (hyp w) = (Ret (Some conn), h) ->
  lookupByName conn domain h = (Raise e, h1) ->
  reboot domain w
  = (Ret (VBool false),
     World h1 (logs w ++ [Log INFO "Reboot" [AStr domain];
                          Log DEBUG "Reboot failed: {0}" [AExc e]])).
Proof.
  intros Hopen Hlookup. unfold reboot.
  rewrite (bind_run _ _ _ _ _ (connect_run w conn h Hopen)).
  unfold try_except, bind, lib, log, modify, ret, raise. cbn [hyp logs fst snd].
  rewrite Hlookup. cbn [hyp logs]. rewrite <- app_assoc. reflexivity.
Qed.

(** X23. When the lookup fails, [start] closes the connection in its handler
    before it returns [False]: the hypervisor is in the state
    [conn.close()] left. *)
Theorem start_lookup_error (w : world H) conn h domain e h1 h2 :
  lv_open "qemu:///system" (hyp w) = (Ret (Some conn), h) ->
  lookupByName conn domain h = (Raise e, h1) ->
  conn_close conn h1 = (Ret tt, h2) ->
  start domain w
  = (Ret (VBool false),
     World h2 (logs w ++ [Log DEBUG "Failed to start domain: {0}" [AExc e]])).
Proof.
  intros Hopen Hlookup Hclose. unfold start.
  rewrite (bind_run _ _ _ _ _ (connect_run w conn h Hopen)).
  unfold try_except, bind, lib, log, modify, ret, raise. cbn [hyp logs fst snd].
  rewrite Hlookup. cbn [hyp logs]. rewrite Hclose. reflexivity.
Qed.

(** X24. Once the domain is found, [shutdown] makes one call on it:
    [dom.destroy()] when [force] is [True] itself and [dom.shutdown()]
    with any other value, a true one such as [1] included.  When that
    call returns and [conn.close()] does, [shutdown] returns [True],
    the hypervisor being in the state the closing left; when that call
    raises, [shutdown] logs the exception and returns [False], the
    connection is not closed and the hypervisor is in the state the
    call left. *)
Theorem shutdown_force_is_True (w : world H) conn h domain force d h1 r h2 :
  lv_open "qemu:///system" (hyp w) = (Ret (Some conn), h) ->
  lookupByName conn domain h = (Ret d, h1) ->
  (if is_True force then dom_destroy d h1 else dom_shutdown d h1) = (r, h2) ->
  match r with
  | Ret _ =>
      forall h3,
        conn_close conn h2 = (Ret tt, h3) ->
        shutdown domain force w
        = (Ret (VBool true),
           World h3 (logs w ++ [Log INFO "Shutting down: {0}" [AStr domain]]))
  | Raise e =>
      shutdown domain force w
      = (Ret (VBool false),
         World h2 (logs w ++ [Log INFO "Shutting down: {0}" [AStr domain]]
                          ++ [Log DEBUG "Shutdown failed: {0}" [AExc e]]))
  end.
Proof.
  intros Hopen Hlookup Hcall. unfold shutdown.
  rewrite (bind_run _ _ _ _ _ (connect_run w conn h Hopen)).
  assert (Hrun : forall w0 : world H,
            hyp w0 = h1 ->
            destroy_or_shutdown d force w0 = (r, World h2 (logs w0))).
  { intros w0 Hw0. unfold destroy_or_shutdown, lib.
    destruct force as [|[|]| | | | |]; cbn [is_True] in Hcall;
      rewrite Hw0, Hcall; reflexivity. }
  destruct r as [[]|e]; [intros h3 Hclose|];
    unfold try_except, bind, log, modify, ret, raise; cbn [hyp logs fst snd];
    unfold lib at 1; cbn [hyp logs fst snd]; rewrite Hlookup;
    cbn [hyp logs fst snd]; rewrite Hrun by reflexivity;
    cbn [hyp logs fst snd].
  - unfold lib. cbn [hyp logs fst snd]. rewrite Hclose. reflexivity.
  - rewrite <- app_assoc. reflexivity.
Qed.

(** The second loop when the pattern matches no name: the library is
    not called, the hypervisor stays as it is. *)
Lemma shutdown_loop_without_match conn force match_ (names : list string) :
  matches_none match_ names = true ->
  forall w : world H,
  exists w',
    for_each names
      (fun _ domain =>
         do! log DEBUG "Checking if match: {0}" [AStr domain] in
         let! found := matches match_ domain in
         if found then
           do! log INFO "Shutting down: {0}" [AStr domain] in
           try_except
             (let! dom := lib (lookupByName conn domain) in
              destroy_or_shutdown dom force)
             (fun error =>
                log DEBUG "Failed to shutdown domain: {0}" [AExc error])
         else ret tt)
      tt w
    = (Ret tt, w') /\ hyp w' = hyp w.
Proof.
  induction names as [|name names IH]; intros Hnone w.
  - exists w. split; reflexivity.
  - cbn [matches_none forallb] in Hnone. apply andb_true_iff in Hnone.
    destruct Hnone as [Hname Hrest]. cbn [for_each].
    rewrite !bind_assoc. rewrite (bind_run _ _ _ _ _ (log_run _ _ _ _)).
    rewrite !bind_assoc.
    destruct (re_search match_ name (Z.lor (Z.lor re_I re_S) re_M))
      as [[|]|e] eqn:Hsearch; try discriminate.
    rewrite (bind_run _ _ _ _ _ (matches_run (World _ _) _ _ _ Hsearch)).
    rewrite bind_ret.
    apply (IH Hrest (World (hyp w)
             (logs w ++ [Log DEBUG "Checking if match: {0}" [AStr name]]))).
Qed.

(** X25. When the pattern matches none of the names listed,
    [shutdown_matching] looks up and shuts down nothing: the state the
    listing left is the one [conn.close()] finds, and the whole list of
    names is returned all the same. *)
Theorem shutdown_matching_without_match (w : world H) conn h match_ force
    names w1 h2 :
  lv_open "qemu:///system" (hyp w) = (Ret (Some conn), h) ->
  all_domain_names conn (World h (logs w)) = (Ret (inr names), w1) ->
  matches_none match_ names = true ->
  conn_close conn (hyp w1) = (Ret tt, h2) ->
  exists w',
    shutdown_matching match_ force w = (Ret (VList names), w')
    /\ hyp w' = h2.
Proof.
  intros Hopen Hnames Hnone Hclose. unfold shutdown_matching.
  rewrite (bind_run _ _ _ _ _ (connect_run w conn h Hopen)).
  rewrite (bind_run _ _ _ _ _ Hnames).
  rewrite (bind_run _ _ _ _ _ (log_run _ _ _ _)).
  match goal with
  | |- context [bind (for_each _ _ _) _ ?W] =>
      destruct (shutdown_loop_without_match conn force match_ names Hnone W)
        as (w2 & Hloop & Hh)
  end.
  rewrite (bind_run _ _ _ _ _ Hloop). cbn [hyp] in Hh.
  rewrite <- Hh in Hclose.
  rewrite (bind_run _ _ _ _ _ (lib_run _ _ _ _ Hclose)).
  eexists. split; reflexivity.
Qed.

End VirshExtras.

(** ** The further properties at concrete inputs *)

Section VirshExtraRuns.
Import Virsh Notions Sample.

Lemma list_unknown_state_witness :
  @list' _ (hypervisor true true) toy_re ".*" "paused" three_domains
  = (Raise (SystemExit 1),
     World ["web1"; "web2"; "db1"]
           [Log DEBUG "Invalid State: {0}" [AStr "paused"]]).
Proof.
  apply (@list_unknown_state _ (hypervisor true true) toy_re three_domains
           ".*" "paused").
  reflexivity.
Defined.

(** The pattern [(] does not compile. *)
Lemma list_without_domains_witness :
  exists w',
    @list' _ (hypervisor true true) toy_re "(" "all" no_domains
    = (Ret (VList []), w')
    /\ hyp w' = [].
Proof.
  apply (@list_without_domains _ (hypervisor true true) toy_re no_domains
           0 [] "(" "all" 0%Z [] []); reflexivity.
Defined.

Lemma list_pattern_error_witness :
  fst (@list' _ (hypervisor true true) toy_re "(" "all" three_domains)
  = Raise ReError.
Proof.
  apply (@list_pattern_error _ (hypervisor true true) toy_re three_domains
           (snd (@_list_vms _ (hypervisor true true) 0
                   (World ["web1"; "web2"; "db1"]
                          [Log INFO "Listing {0} VMs" [AStr "all"]])))
           "(" "all" 0%Z "web1" ["web2"; "db1"] ReError);
    vm_compute; reflexivity.
Defined.

Lemma list_name_error_witness :
  fst (@list' _ hypervisor_nameless toy_re ".*" "all" three_domains)
  = Raise (LibvirtError "name").
Proof.
  apply (@list_name_error _ hypervisor_nameless toy_re three_domains 0
           ["web1"; "web2"; "db1"] ".*" "all" 0%Z 0 [1; 2]
           ["web1"; "web2"; "db1"] ["web1"; "web2"; "db1"]
           ["web1"; "web2"; "db1"] (LibvirtError "name"));
    reflexivity.
Defined.

Lemma reboot_true_iff_witness :
  fst (@reboot _ (hypervisor true true) "web1" three_domains)
  = Ret (VBool true)
  <-> exists d h1 h2 h3,
        @lookupByName _ (hypervisor true true) 0 "web1"
          ["web1"; "web2"; "db1"] = (Ret d, h1)
        /\ @dom_reboot _ (hypervisor true true) d 0 h1 = (Ret tt, h2)
        /\ @conn_close _ (hypervisor true true) 0 h2 = (Ret tt, h3).
Proof.
  apply (@reboot_true_iff _ (hypervisor true true) three_domains 0
           ["web1"; "web2"; "db1"] "web1").
  reflexivity.
Defined.

Lemma reboot_lookup_error_witness :
  @reboot _ (hypervisor true false) "web1" three_domains
  = (Ret (VBool false),
     World ["web1"; "web2"; "db1"]
           [Log INFO "Reboot" [AStr "web1"];
            Log DEBUG "Reboot failed: {0}" [AExc (LibvirtError "lookup")]]).
Proof.
  apply (@reboot_lookup_error _ (hypervisor true false) three_domains 0
           ["web1"; "web2"; "db1"] "web1" (LibvirtError "lookup")
           ["web1"; "web2"; "db1"]); reflexivity.
Defined.

Lemma start_lookup_error_witness :
  @start _ (hypervisor true false) "web1" three_domains
  = (Ret (VBool false),
     World ["web1"; "web2"; "db1"]
           [Log DEBUG "Failed to start domain: {0}"
                [AExc (LibvirtError "lookup")]]).
Proof.
  apply (@start_lookup_error _ (hypervisor true false) three_domains 0
           ["web1"; "web2"; "db1"] "web1" (LibvirtError "lookup")
           ["web1"; "web2"; "db1"] ["web1"; "web2"; "db1"]); reflexivity.
Defined.

(** [force=1] is true and is not [True]: on a hypervisor that refuses
    to destroy, the domain is shut down with [1] and the destruction
    fails with [True]. *)
Lemma shutdown_force_is_True_witness :
  @shutdown _ hypervisor_no_destroy "web1" (VInt 1) three_domains
  = (Ret (VBool true),
     World ["web1"; "web2"; "db1"]
           [Log INFO "Shutting down: {0}" [AStr "web1"]])
  /\ @shutdown _ hypervisor_no_destroy "web1" (VBool true) three_domains
     = (Ret (VBool false),
        World ["web1"; "web2"; "db1"]
              [Log INFO "Shutting down: {0}" [AStr "web1"];
               Log DEBUG "Shutdown failed: {0}"
                   [AExc (LibvirtError "destroy")]]).
Proof.
  split.
  - apply (@shutdown_force_is_True _ hypervisor_no_destroy three_domains 0
             ["web1"; "web2"; "db1"] "web1" (VInt 1) 0
             ["web1"; "web2"; "db1"] (Ret tt) ["web1"; "web2"; "db1"]);
      reflexivity.
  - apply (@shutdown_force_is_True _ hypervisor_no_destroy three_domains 0
             ["web1"; "web2"; "db1"] "web1" (VBool true) 0
             ["web1"; "web2"; "db1"] (Raise (LibvirtError "destroy"))
             ["web1"; "web2"; "db1"]);
      reflexivity.
Defined.

Lemma shutdown_matching_without_match_witness :
  exists w',
    @shutdown_matching _ (hypervisor true true) toy_re "^zzz" (VBool true)
      three_domains
    = (Ret (VList ["web1"; "web2"; "db1"]), w')
    /\ hyp w' = ["web1"; "web2"; "db1"].
Proof.
  apply (@shutdown_matching_without_match _ (hypervisor true true) toy_re
           three_domains 0 ["web1"; "web2"; "db1"] "^zzz" (VBool true)
           ["web1"; "web2"; "db1"] three_domains ["web1"; "web2"; "db1"]);
    vm_compute; reflexivity.
Defined.

End VirshExtraRuns.
